(** * desmod.tracer: scope filtering, log and VCD tracers, trace manager

    A shallow embedding of [src/desmod/tracer.py].  Python objects become
    records whose optional attributes are [option] fields (an attribute
    that was never assigned reads as [None] here and raises
    [AttributeError] when the code loads it); dictionaries are [gmap]s;
    exceptions are the [Err] results of an error monad; output (files,
    the VCD writer, the probe-attachment collaborator) is an append-only
    list of events carried by a state monad. *)

From Stdlib Require Import ZArith String Ascii List Bool Lia.
From Stdlib Require Import Floats.PrimFloat.
From stdpp Require Import base gmap strings list option pretty.

Set Default Proof Using "Type".

(** ** Python values, exceptions and results *)

(** The values that reach the tracer through the configuration, the hint
    bag, the simulation clock and the probed objects. *)
Inductive value :=
| VNone
| VBool (b : bool)
| VInt (z : Z)
| VFloat (f : float)
| VStr (s : string)
| VStrs (l : list string).

(** Python truthiness ([if x:], [x and y]). *)
Definition truthy (v : value) : bool :=
  match v with
  | VNone => false
  | VBool b => b
  | VInt z => negb (z =? 0)%Z
  | VFloat f => negb (PrimFloat.eqb f zero)
  | VStr s => negb (String.eqb s "")
  | VStrs l => match l with [] => false | _ => true end
  end.

(** [isinstance(v, float)] *)
Definition is_float (v : value) : bool :=
  match v with VFloat _ => true | _ => false end.

(** The exceptions of the code.  [Unmodelled] is not one of them: it is
    the outcome of the model where it stops following the interpreter
    (a pattern in syntax that [Re.compile] below does not parse), kept
    apart from every exception Python raises. *)
Inductive exn :=
| AttributeError (cls attr : string)
| KeyError (key : string)
| ValueError (msg : string)
| TypeError (msg : string)
| AssertionError
| NotImplementedError
| ReError (pat : string)
| Unmodelled (what : string)
| Raised (type msg : string).

Inductive result (A : Type) :=
| Ok (a : A)
| Err (e : exn).
Arguments Ok {A} a.
Arguments Err {A} e.

Definition rbind {A B} (r : result A) (k : A → result B) : result B :=
  match r with Ok a => k a | Err e => Err e end.

Notation "'let?' x ':=' r 'in' k" := (rbind r (fun x => k))
  (at level 10, x name, r at level 100, k at level 200).

Fixpoint rmap_list {A B} (f : A → result B) (l : list A) : result (list B) :=
  match l with
  | [] => Ok []
  | a :: l' =>
      let? b := f a in
      let? bs := rmap_list f l' in
      Ok (b :: bs)
  end.

(** Loading an attribute that may not have been assigned. *)
Definition load_attr {A} (cls attr : string) (o : option A) : result A :=
  match o with Some a => Ok a | None => Err (AttributeError cls attr) end.

(** [d[key]] on a dictionary. *)
Definition subscript {A} (d : gmap string A) (key : string) : result A :=
  match d !! key with Some a => Ok a | None => Err (KeyError key) end.

(** [d.get(key, default)] *)
Definition dict_get {A} (d : gmap string A) (key : string) (default : A) : A :=
  match d !! key with Some a => a | None => default end.

(** [key in d] *)
Definition dict_has {A} (d : gmap string A) (key : string) : bool :=
  match d !! key with Some _ => true | None => false end.

(** ** Regular expressions: the fragment of [re] the scope filter uses *)

Module Re.

Inductive regex :=
| Void
| Eps
| Chr (c : ascii)
| AnyChar
| Cat (r1 r2 : regex)
| Alt (r1 r2 : regex)
| Star (r : regex).

Definition newline : ascii := "010"%char.

(** The language of a pattern.  [.] is any character but a newline. *)
Inductive matches : regex → string → Prop :=
| MEps : matches Eps ""
| MChr c : matches (Chr c) (String c "")
| MAny c : c ≠ newline → matches AnyChar (String c "")
| MCat r1 r2 s1 s2 :
    matches r1 s1 → matches r2 s2 → matches (Cat r1 r2) (s1 +:+ s2)
| MAltL r1 r2 s : matches r1 s → matches (Alt r1 r2) s
| MAltR r1 r2 s : matches r2 s → matches (Alt r1 r2) s
| MStarNil r : matches (Star r) ""
| MStarApp r s1 s2 :
    matches r s1 → matches (Star r) s2 → matches (Star r) (s1 +:+ s2).

Fixpoint nullable (r : regex) : bool :=
  match r with
  | Void | Chr _ | AnyChar => false
  | Eps | Star _ => true
  | Cat r1 r2 => nullable r1 && nullable r2
  | Alt r1 r2 => nullable r1 || nullable r2
  end.

Fixpoint deriv (c : ascii) (r : regex) : regex :=
  match r with
  | Void | Eps => Void
  | Chr c' => if Ascii.eqb c c' then Eps else Void
  | AnyChar => if Ascii.eqb c newline then Void else Eps
  | Cat r1 r2 =>
      if nullable r1
      then Alt (Cat (deriv c r1) r2) (deriv c r2)
      else Cat (deriv c r1) r2
  | Alt r1 r2 => Alt (deriv c r1) (deriv c r2)
  | Star r1 => Cat (deriv c r1) (Star r1)
  end.

(** [r.match(s)] as a truth value: some prefix of [s], starting at
    position 0, is in the language of [r]. *)
Fixpoint re_match (r : regex) (s : string) : bool :=
  nullable r ||
  match s with
  | EmptyString => false
  | String c s' => re_match (deriv c r) s'
  end.

(** The declarative reading of the same thing. *)
Definition matches_prefix (r : regex) (s : string) : Prop :=
  ∃ p q, s = p +:+ q ∧ matches r p.

Definition is_alnum (c : ascii) : bool :=
  let n := nat_of_ascii c in
  ((48 <=? n) && (n <=? 57)) || ((65 <=? n) && (n <=? 90)) ||
  ((97 <=? n) && (n <=? 122)).

(** Characters that start syntax this model does not parse. *)
Definition is_other_meta (c : ascii) : bool :=
  existsb (Ascii.eqb c)
    ["|"; "("; ")"; "["; "]"; "{"; "}"; "^"; "$"]%char.

(** The outcome of parsing: a pattern of the fragment; a pattern [re]
    itself refuses; or syntax that [re] may well accept and this model
    does not follow (groups, alternation, classes, anchors, escapes of
    letters and digits, lazy and possessive quantifiers). *)
Inductive parsed :=
| Parsed (r : regex)
| Malformed
| Unsupported.

(** Parser state: the pattern built so far, the last atom (a quantifier
    applies to it; the flag records that it already has one), and
    whether the previous character was a backslash. *)
Definition flush (done : regex) (last : option (regex * bool)) : regex :=
  match last with
  | None => done
  | Some (a, _) => Cat done a
  end.

Fixpoint parse_from (esc : bool) (done : regex)
    (last : option (regex * bool)) (s : string) : parsed :=
  match s with
  | EmptyString => if esc then Malformed else Parsed (flush done last)
  | String c s' =>
      if esc then
        if is_alnum c then Unsupported
        else parse_from false (flush done last) (Some (Chr c, false)) s'
      else if Ascii.eqb c "\"%char then parse_from true done last s'
      else if Ascii.eqb c "."%char then
        parse_from false (flush done last) (Some (AnyChar, false)) s'
      else if Ascii.eqb c "*"%char then
        match last with
        | Some (a, false) => parse_from false done (Some (Star a, true)) s'
        | _ => Malformed
        end
      else if Ascii.eqb c "+"%char then
        match last with
        | Some (a, false) =>
            parse_from false done (Some (Cat a (Star a), true)) s'
        | Some (_, true) => Unsupported
        | None => Malformed
        end
      else if Ascii.eqb c "?"%char then
        match last with
        | Some (a, false) => parse_from false done (Some (Alt a Eps, true)) s'
        | Some (_, true) => Unsupported
        | None => Malformed
        end
      else if is_other_meta c then Unsupported
      else parse_from false (flush done last) (Some (Chr c, false)) s'
  end.

(** [re.compile(pat)] for patterns made of literal characters, [.],
    escaped punctuation and the postfix quantifiers [*], [+], [?].  A
    quantifier with nothing to repeat, a repeated [*] and a trailing
    backslash raise [re.error], as in [re].  Every other syntax is
    outside this model: there the result is [Unmodelled], which says
    nothing about what [re] does with the pattern. *)
Definition compile (pat : string) : result regex :=
  match parse_from false Eps None pat with
  | Parsed r => Ok r
  | Malformed => Err (ReError pat)
  | Unsupported => Err (Unmodelled pat)
  end.

End Re.

(** ** Format strings: [str.format] and [partial_format] *)

(** Python's [format(value, spec)] for a single replacement field.  It is
    part of the interpreter, not of this package, and is taken as an
    interface; it may raise (a numeric spec applied to a string). *)
Class Formatter := py_format : value → string → result string.

Module Fmt.

Inductive piece :=
| Lit (s : string)
| Field (name spec : string).

Inductive pstate :=
| SText (lit : string)
| SOpen (lit : string)
| SClose (lit : string)
| SName (name : string)
| SSpec (name spec : string).

Definition snoc (s : string) (c : ascii) : string := s +:+ String c "".

Definition emit_lit (acc : list piece) (lit : string) : list piece :=
  if String.eqb lit "" then acc else acc ++ [Lit lit].

(** Splits a format string into literal text and replacement fields
    [{name}] / [{name:spec}]; [{{] and [}}] are literal braces.  [None]
    is the [ValueError] of an unbalanced brace. *)
Fixpoint parse_from (st : pstate) (acc : list piece) (s : string)
  : option (list piece) :=
  match s with
  | EmptyString =>
      match st with
      | SText lit => Some (emit_lit acc lit)
      | _ => None
      end
  | String c s' =>
      match st with
      | SText lit =>
          if Ascii.eqb c "{"%char then parse_from (SOpen lit) acc s'
          else if Ascii.eqb c "}"%char then parse_from (SClose lit) acc s'
          else parse_from (SText (snoc lit c)) acc s'
      | SOpen lit =>
          if Ascii.eqb c "{"%char then parse_from (SText (snoc lit c)) acc s'
          else if Ascii.eqb c "}"%char then
            parse_from (SText "") (emit_lit acc lit ++ [Field "" ""]) s'
          else if Ascii.eqb c ":"%char then
            parse_from (SSpec "" "") (emit_lit acc lit) s'
          else parse_from (SName (String c "")) (emit_lit acc lit) s'
      | SClose lit =>
          if Ascii.eqb c "}"%char then parse_from (SText (snoc lit c)) acc s'
          else None
      | SName n =>
          if Ascii.eqb c "}"%char then
            parse_from (SText "") (acc ++ [Field n ""]) s'
          else if Ascii.eqb c ":"%char then parse_from (SSpec n "") acc s'
          else if Ascii.eqb c "{"%char then None
          else parse_from (SName (snoc n c)) acc s'
      | SSpec n sp =>
          if Ascii.eqb c "}"%char then
            parse_from (SText "") (acc ++ [Field n sp]) s'
          else if Ascii.eqb c "{"%char then None
          else parse_from (SSpec n (snoc sp c)) acc s'
      end
  end.

Definition parse (s : string) : result (list piece) :=
  match parse_from (SText "") [] s with
  | Some ps => Ok ps
  | None => Err (ValueError "malformed format string")
  end.

(** A string formats to itself under the empty spec; everything else
    goes through the interpreter's [format]. *)
Definition format_field `{Formatter} (v : value) (spec : string)
  : result string :=
  match v with
  | VStr s => if String.eqb spec "" then Ok s else py_format v spec
  | _ => py_format v spec
  end.

Fixpoint render `{Formatter} (ps : list piece) (kw : gmap string value)
  : result string :=
  match ps with
  | [] => Ok ""
  | Lit l :: ps' =>
      let? rest := render ps' kw in
      Ok (l +:+ rest)
  | Field n sp :: ps' =>
      let? v := subscript kw n in
      let? txt := format_field v sp in
      let? rest := render ps' kw in
      Ok (txt +:+ rest)
  end.

(** [s.format] called with the keyword arguments [kw] *)
Definition format `{Formatter} (s : string) (kw : gmap string value)
  : result string :=
  let? ps := parse s in
  render ps kw.

Fixpoint escape_braces (s : string) : string :=
  match s with
  | EmptyString => ""
  | String c s' =>
      if Ascii.eqb c "{"%char then "{{" +:+ escape_braces s'
      else if Ascii.eqb c "}"%char then "}}" +:+ escape_braces s'
      else String c (escape_braces s')
  end.

Definition unparse_field (n sp : string) : string :=
  if String.eqb sp "" then "{" +:+ n +:+ "}"
  else "{" +:+ n +:+ ":" +:+ sp +:+ "}".

Fixpoint render_partial `{Formatter} (ps : list piece)
    (kw : gmap string value) : result string :=
  match ps with
  | [] => Ok ""
  | Lit l :: ps' =>
      let? rest := render_partial ps' kw in
      Ok (escape_braces l +:+ rest)
  | Field n sp :: ps' =>
      let? txt :=
        match kw !! n with
        | Some v =>
            let? t := format_field v sp in
            Ok (escape_braces t)
        | None => Ok (unparse_field n sp)
        end in
      let? rest := render_partial ps' kw in
      Ok (txt +:+ rest)
  end.

(** Modelled from the spec: [desmod.util.partial_format], which is not
    among the sources.  The spec says it "partially binds the format
    template with level/time-unit/scope" so that a later [format] call
    "finishes formatting with the current simulated time and message":
    the fields named in [kw] are replaced by their formatted values,
    the others are left in place as replacement fields. *)
Definition partial_format `{Formatter} (s : string)
    (kw : gmap string value) : result string :=
  let? ps := parse s in
  render_partial ps kw.

End Fmt.

(** ** The environment, the probed objects and the outside world *)

(** [env.config] and [env.timescale]; [env.now] lives in the world below
    because the scheduler advances it. *)
Record Env := { config : gmap string value; timescale : Z * string }.

(** [sys.stderr] or a file opened for writing. *)
Inductive sink := Stderr | File (path : string).

(** The context managers a tracer's [ExitStack] holds: an open file, or
    the [VCDWriter] over the file at [path]. *)
Inductive resource := RFile (path : string) | RWriter (path : string).

(** The [simpy] objects that are probed.  [Container], [Resource] and
    [Store] stand for these classes and their subclasses; [Other] is any
    object that is an instance of none of them. *)
Inductive capacity := Bounded (n : Z) | Unbounded.

Inductive target :=
| Container (cap : capacity) (level : value)
| Resource (cap : capacity) (users : list Z)
| Store (cap : capacity) (items : list value)
| Other.

(** The hint bag: tracer name to that backend's options. *)
Abbreviation hint_bag := (gmap string (gmap string value)).

(** The closures [activate_probe] returns, as the data they capture. *)
Inductive callback :=
| LogProbe (format_str : string) (value_fmt : value) (file : option sink)
| VcdProbe (var : nat).

(** What the tracing layer does to its collaborators, in order.
    [EvActivate] is not an effect: it marks the point where [auto_probe]
    calls a tracer's [activate_probe]. *)
Inductive event :=
| EvOpen (path : string)
| EvPrint (file : sink) (text : string)
| EvClose (path : string)
| EvWriter (path : string) (ts : Z * string) (check_values : value)
| EvRegister (meth parent_scope name : string) (kwargs : gmap string value)
| EvChange (var : nat) (ts : value) (v : value)
| EvWriterClose (path : string)
| EvSpawnViewer (dump_file save_file : string)
| EvActivate (tracer : string)
| EvAttach (scope : string) (tgt : target) (callbacks : list callback)
    (hints : hint_bag).

Record world := { now : value; events : list event }.

(** State and exceptions: an exception keeps what was done before it. *)
Definition M (A : Type) : Type := world → result A * world.

Definition ret {A} (a : A) : M A := λ w, (Ok a, w).

Definition bind {A B} (m : M A) (k : A → M B) : M B :=
  λ w, match m w with
       | (Ok a, w') => k a w'
       | (Err e, w') => (Err e, w')
       end.

Notation "'let!' x ':=' m 'in' k" := (bind m (fun x => k))
  (at level 10, x name, m at level 100, k at level 200).
Notation "'let!' ' p ':=' m 'in' k" :=
  (bind m (fun x => match x with p => k end))
  (at level 10, p pattern, m at level 100, k at level 200).

Definition raise {A} (e : exn) : M A := λ w, (Err e, w).

Definition lift {A} (r : result A) : M A := λ w, (r, w).

Definition emit (ev : event) : M unit :=
  λ w, (Ok tt, {| now := now w; events := events w ++ [ev] |}).

Definition get_now : M value := λ w, (Ok (now w), w).

(** [try: ... except:] *)
Definition catch {A} (m : M A) : M (result A) :=
  λ w, match m w with (r, w') => (Ok r, w') end.

(** [print] with [file=f]: the arguments, converted with [str], joined
    by single spaces and ended by a newline. *)
Definition print_text (args : list string) : string :=
  String.concat " " args +:+ String Re.newline "".

Definition print (args : list string) (f : sink) : M unit :=
  emit (EvPrint f (print_text args)).

(** [str(v)], which is [format(v, '')]. *)
Definition py_str `{Formatter} (v : value) : result string :=
  Fmt.format_field v "".

Definition as_str (cls attr : string) (v : value) : result string :=
  match v with
  | VStr s => Ok s
  | _ => Err (AttributeError cls attr)
  end.

(** Exception details as [__exit__] receives them, and
    [traceback.format_exception] on them: the header, one entry per
    frame, and the line naming the exception. *)
Record exc_info := { exc_type : string; exc_val : string; exc_tb : list string }.

Definition format_exception_only (e : exc_info) : string :=
  if String.eqb (exc_val e) ""
  then exc_type e +:+ String Re.newline ""
  else exc_type e +:+ ": " +:+ exc_val e +:+ String Re.newline "".

Definition format_exception (e : exc_info) : list string :=
  ("Traceback (most recent call last):" +:+ String Re.newline "")
    :: exc_tb e ++ [format_exception_only e].

Definition exn_info (e : exn) : exc_info :=
  match e with
  | AttributeError cls attr =>
      {| exc_type := "AttributeError";
         exc_val := "'" +:+ cls +:+ "' object has no attribute '" +:+ attr +:+ "'";
         exc_tb := [] |}
  | KeyError k =>
      {| exc_type := "KeyError"; exc_val := "'" +:+ k +:+ "'"; exc_tb := [] |}
  | ValueError m => {| exc_type := "ValueError"; exc_val := m; exc_tb := [] |}
  | TypeError m => {| exc_type := "TypeError"; exc_val := m; exc_tb := [] |}
  | AssertionError => {| exc_type := "AssertionError"; exc_val := ""; exc_tb := [] |}
  | NotImplementedError =>
      {| exc_type := "NotImplementedError"; exc_val := ""; exc_tb := [] |}
  | ReError p => {| exc_type := "error"; exc_val := p; exc_tb := [] |}
  | Unmodelled p => {| exc_type := "Unmodelled"; exc_val := p; exc_tb := [] |}
  | Raised t m => {| exc_type := t; exc_val := m; exc_tb := [] |}
  end.

(** [s.rsplit(sep, 1)] for a one-character separator. *)
Fixpoint rsplit_pair (sep : ascii) (s : string) : option (string * string) :=
  match s with
  | EmptyString => None
  | String c s' =>
      match rsplit_pair sep s' with
      | Some (p, n) => Some (String c p, n)
      | None => if Ascii.eqb c sep then Some ("", s') else None
      end
  end.

Definition rsplit1 (sep : ascii) (s : string) : list string :=
  match rsplit_pair sep s with
  | Some (p, n) => [p; n]
  | None => [s]
  end.

(** [a, b = l] *)
Definition unpack2 (l : list string) : result (string * string) :=
  match l with
  | [a; b] => Ok (a, b)
  | [] | [_] =>
      Err (ValueError ("not enough values to unpack (expected 2, got "
                       +:+ pretty (length l) +:+ ")"))
  | _ => Err (ValueError "too many values to unpack (expected 2)")
  end.

Fixpoint contains_char (c : ascii) (s : string) : bool :=
  match s with
  | EmptyString => false
  | String c' s' => Ascii.eqb c' c || contains_char c s'
  end.

(** ** class Tracer *)

Module Tracer.

(** A tracer object.  [ext] holds the attributes a subclass adds;
    [_include_re] and [_exclude_re] exist only once [__init__] has
    assigned them.  [exit_stack] lists the entered context managers,
    oldest first. *)
Record t (X : Type) := mk {
  env : Env;
  exit_stack : list resource;
  enabled : value;
  _include_re : option (list Re.regex);
  _exclude_re : option (list Re.regex);
  ext : X
}.
Arguments mk {X}.
Arguments env {X}.
Arguments exit_stack {X}.
Arguments enabled {X}.
Arguments _include_re {X}.
Arguments _exclude_re {X}.
Arguments ext {X}.

Definition with_exit_stack {X} (self : t X) (st : list resource) : t X :=
  mk (env self) st (enabled self) (_include_re self) (_exclude_re self)
     (ext self).

Definition with_include_re {X} (self : t X) (l : list Re.regex) : t X :=
  mk (env self) (exit_stack self) (enabled self) (Some l)
     (_exclude_re self) (ext self).

Definition with_exclude_re {X} (self : t X) (l : list Re.regex) : t X :=
  mk (env self) (exit_stack self) (enabled self) (_include_re self)
     (Some l) (ext self).

Definition with_ext {X} (self : t X) (x : X) : t X :=
  mk (env self) (exit_stack self) (enabled self) (_include_re self)
     (_exclude_re self) x.

(** [self.exit_stack.enter_context(r)] *)
Definition enter_context {X} (self : t X) (r : resource) : t X :=
  with_exit_stack self (exit_stack self ++ [r]).

(** [[re.compile(pat) for pat in pats]]: a list yields its strings, a
    string yields its characters, anything else is not iterable. *)
Definition compile_all (pats : value) : result (list Re.regex) :=
  match pats with
  | VStrs l => rmap_list Re.compile l
  | VStr s =>
      rmap_list Re.compile (map (λ c, String c "") (list_ascii_of_string s))
  | _ => Err (TypeError "object is not iterable")
  end.

(** [open] is the subclass's method, [name] its class attribute and
    [blank] its attributes before [open] has run. *)
Definition __init__ {X} (name : string) (open : t X → M (t X))
    (blank : X) (env : Env) : M (t X) :=
  let cfg_scope := "sim." +:+ name +:+ "." in
  let self :=
    mk env [] (dict_get (config env) (cfg_scope +:+ "enable") (VBool false))
       None None blank in
  if truthy (enabled self) then
    let! self := open self in
    let include_pat :=
      dict_get (config env) (cfg_scope +:+ "include_pat") (VStrs [".*"]) in
    let exclude_pat :=
      dict_get (config env) (cfg_scope +:+ "exclude_pat") (VStrs []) in
    let! inc := lift (compile_all include_pat) in
    let self := with_include_re self inc in
    let! exc := lift (compile_all exclude_pat) in
    ret (with_exclude_re self exc)
  else ret self.

(** The truth value of
    [self.enabled and any(...) and not any(...)]. *)
Definition is_scope_enabled {X} (self : t X) (scope : string)
  : result bool :=
  if truthy (enabled self) then
    let? inc := load_attr "Tracer" "_include_re" (_include_re self) in
    if existsb (λ r, Re.re_match r scope) inc then
      let? exc := load_attr "Tracer" "_exclude_re" (_exclude_re self) in
      Ok (negb (existsb (λ r, Re.re_match r scope) exc))
    else Ok false
  else Ok false.

Definition open {X} (self : t X) : M (t X) := raise NotImplementedError.

Definition close_resource (r : resource) : M unit :=
  match r with
  | RFile p => emit (EvClose p)
  | RWriter p => emit (EvWriterClose p)
  end.

(** [ExitStack.close]: leave the contexts, last entered first. *)
Fixpoint close_all (rs : list resource) : M unit :=
  match rs with
  | [] => ret tt
  | r :: rs' =>
      let! _ := close_all rs' in
      close_resource r
  end.

Definition close {X} (self : t X) : M (t X) :=
  let! _ := close_all (exit_stack self) in
  ret (with_exit_stack self []).

Definition activate_probe {X} (self : t X) (scope : string) (tgt : target)
    (hints : hint_bag) : M (option callback) :=
  raise NotImplementedError.

Definition __enter__ {X} (self : t X) : t X := self.

(** Returns [None], so the second component (suppress the exception)
    is false. *)
Definition __exit__ {X} (self : t X) (exc : option exc_info)
  : M (t X * bool) :=
  let! self := close self in
  ret (self, false).

End Tracer.

(** ** class LogTracer(Tracer) *)

Module LogTracer.

Record attrs := mk_attrs {
  max_level : option Z;
  format_str : option value;
  ts_unit : option string;
  file : option sink
}.

Abbreviation t := (Tracer.t attrs).

Definition name : string := "log".

Definition default_format : string :=
  "{level} {ts:.3f} {ts_unit}: {scope}: {message}".

Definition levels : gmap string Z :=
  list_to_map
    [("ERROR", 1%Z); ("WARNING", 2%Z); ("INFO", 3%Z); ("PROBE", 4%Z);
     ("DEBUG", 5%Z)].

(** [self.levels[key]]: a string is looked up, another hashable value
    is absent, a list is unhashable. *)
Definition levels_subscript (key : value) : result Z :=
  match key with
  | VStr s => subscript levels s
  | VStrs _ => Err (TypeError "unhashable type: 'list'")
  | _ => Err (KeyError "<non-string key>")
  end.

Definition blank : attrs := mk_attrs None None None None.

Definition open (self : t) : M t :=
  let cfg := config (Tracer.env self) in
  let log_filename := dict_get cfg "sim.log.file" VNone in
  let! max := lift (levels_subscript
                      (dict_get cfg "sim.log.level" (VStr "INFO"))) in
  let fmt := dict_get cfg "sim.log.format" (VStr default_format) in
  let '(ts_n, unit) := timescale (Tracer.env self) in
  let tsu :=
    if (ts_n =? 1)%Z then unit
    else "(" +:+ pretty ts_n +:+ unit +:+ ")" in
  if truthy log_filename then
    let! path := lift (match log_filename with
                       | VStr p => Ok p
                       | _ => Err (TypeError "expected str")
                       end) in
    let! _ := emit (EvOpen path) in
    let self :=
      Tracer.with_ext self
        (mk_attrs (Some max) (Some fmt) (Some tsu) (Some (File path))) in
    ret (Tracer.enter_context self (RFile path))
  else
    ret (Tracer.with_ext self
           (mk_attrs (Some max) (Some fmt) (Some tsu) (Some Stderr))).

Definition __init__ (env : Env) : M t :=
  Tracer.__init__ name open blank env.

Definition load_format_str (self : t) : result string :=
  let? v := load_attr "LogTracer" "format_str" (format_str (Tracer.ext self)) in
  as_str "format_str" "format" v.

Definition load_ts_unit (self : t) : result string :=
  load_attr "LogTracer" "ts_unit" (ts_unit (Tracer.ext self)).

Definition load_file (self : t) : result sink :=
  load_attr "LogTracer" "file" (file (Tracer.ext self)).

Definition __exit__ `{Formatter} (self : t) (exc : option exc_info)
  : M (t * bool) :=
  let! _ :=
    match exc with
    | Some e =>
        if truthy (Tracer.enabled self) then
          let tb_lines := format_exception e in
          let! fmt := lift (load_format_str self) in
          let! ts := get_now in
          let! tsu := lift (load_ts_unit self) in
          let! line :=
            lift (Fmt.format fmt
                    (<["level" := VStr "ERROR"]>
                     (<["ts" := ts]>
                      (<["ts_unit" := VStr tsu]>
                       (<["scope" := VStr "Exception"]>
                        (<["message" := VStr (List.last tb_lines "")]> ∅)))))) in
          let! f := lift (load_file self) in
          print (line :: String Re.newline "" :: tb_lines) f
        else ret tt
    | None => ret tt
    end in
  let! self := Tracer.close self in
  ret (self, false).

(** [level] is [VNone] when the argument is left out. *)
Definition is_scope_enabled (self : t) (scope : string) (level : value)
  : result bool :=
  let? level_ok :=
    match level with
    | VNone => Ok true
    | _ =>
        let? rank := levels_subscript level in
        let? max := load_attr "LogTracer" "max_level"
                      (max_level (Tracer.ext self)) in
        Ok (rank <=? max)%Z
    end in
  if level_ok then Tracer.is_scope_enabled self scope else Ok false.

(** The two closures [get_log_function] can return. *)
Inductive log_function :=
| LogLine (format_str : string) (file : option sink)
| LogNothing.

Definition bound_format `{Formatter} (self : t) (scope : string)
    (level : value) : result string :=
  let? fmt := load_format_str self in
  let? tsu := load_ts_unit self in
  Fmt.partial_format fmt
    (<["level" := level]>
     (<["ts_unit" := VStr tsu]> (<["scope" := VStr scope]> ∅))).

Definition get_log_function `{Formatter} (self : t) (scope : string)
    (level : value) : result log_function :=
  let? en := is_scope_enabled self scope level in
  if en then
    let? format_str := bound_format self scope level in
    Ok (LogLine format_str (file (Tracer.ext self)))
  else Ok LogNothing.

(** Calling the closure: [log_function(message, *args)]. *)
Definition call_log_function `{Formatter} (f : log_function)
    (message : value) (args : list value) : M unit :=
  match f with
  | LogLine format_str file =>
      let! ts := get_now in
      let! line := lift (Fmt.format format_str
                           (<["ts" := ts]> (<["message" := message]> ∅))) in
      let! rest := lift (rmap_list py_str args) in
      let! f := lift (load_attr "LogTracer" "file" file) in
      print (line :: rest) f
  | LogNothing => ret tt
  end.

Definition activate_probe `{Formatter} (self : t) (scope : string)
    (tgt : target) (hints : hint_bag) : result (option callback) :=
  let log_hints := dict_get hints "log" ∅ in
  let level := dict_get log_hints "level" (VStr "PROBE") in
  let? en := is_scope_enabled self scope level in
  if negb en then Ok None
  else
    let value_fmt := dict_get log_hints "value_fmt" (VStr "{value}") in
    let? format_str := bound_format self scope level in
    Ok (Some (LogProbe format_str value_fmt (file (Tracer.ext self)))).

End LogTracer.

(** ** class VCDTracer(Tracer) *)

Module VCDTracer.

(** [vcd] is the [VCDWriter], known by the file it writes. *)
Record attrs := mk_attrs { vcd : option string }.

Abbreviation t := (Tracer.t attrs).

Definition name : string := "vcd".

Definition blank : attrs := mk_attrs None.

Definition open (self : t) : M t :=
  let cfg := config (Tracer.env self) in
  let! dump := lift (subscript cfg "sim.vcd.dump_file") in
  let! dump_filename := lift (match dump with
                              | VStr p => Ok p
                              | _ => Err (TypeError "expected str")
                              end) in
  let! _ := emit (EvOpen dump_filename) in
  let self := Tracer.enter_context self (RFile dump_filename) in
  let! _ := emit (EvWriter dump_filename (timescale (Tracer.env self))
                    (dict_get cfg "sim.vcd.check_values" (VBool true))) in
  let self := Tracer.with_ext self (mk_attrs (Some dump_filename)) in
  let self := Tracer.enter_context self (RWriter dump_filename) in
  if truthy (dict_get cfg "sim.gtkw.live" VNone) then
    let! save := lift (subscript cfg "sim.gtkw.file") in
    let! save_filename := lift (match save with
                                | VStr p => Ok p
                                | _ => Err (TypeError "expected str")
                                end) in
    let! _ := emit (EvSpawnViewer dump_filename save_filename) in
    ret self
  else ret self.

Definition __init__ (env : Env) : M t :=
  Tracer.__init__ name open blank env.

(** A bound method, as an attribute load yields it: one of the
    writer's registration methods, or a method of the tracer itself. *)
Inductive method :=
| WriterMethod (name : string)
| TracerMethod (name : string).

(** [self.vcd.<meth>]: [self.vcd] must have been assigned. *)
Definition writer_method (self : t) (meth : string) : result method :=
  let? _ := load_attr "VCDTracer" "vcd" (vcd (Tracer.ext self)) in
  Ok (WriterMethod meth).

(** The callables an attribute load on a [VCDTracer] finds: the methods
    [Tracer] and [VCDTracer] define. *)
Definition methods : list string :=
  ["__init__"; "is_scope_enabled"; "open"; "close"; "activate_probe";
   "__enter__"; "__exit__"].

(** [self.<attr>] where a callable is expected. *)
Definition self_method (self : t) (attr : string) : result method :=
  if existsb (String.eqb attr) methods then Ok (TracerMethod attr)
  else Err (AttributeError "VCDTracer" attr).

(** Lines 155-165: the kind when no [var_type] hint is given. *)
Definition infer_var_type (scope : string) (tgt : target) : result value :=
  match tgt with
  | Container _ level =>
      if is_float level then Ok (VStr "real") else Ok (VStr "integer")
  | Resource _ _ | Store _ _ => Ok (VStr "integer")
  | Other =>
      Err (ValueError ("Could not infer VCD var_type for " +:+ scope))
  end.

(** Lines 154-165. *)
Definition resolve_var_type (scope : string) (tgt : target)
    (vcd_hints : gmap string value) : result value :=
  match dict_get vcd_hints "var_type" VNone with
  | VNone => infer_var_type scope tgt
  | v => Ok v
  end.

(** Lines 167-169. *)
Definition select_kwargs (vcd_hints : gmap string value)
  : gmap string value :=
  foldl (λ kw k, match vcd_hints !! k with
                 | Some v => <[k := v]> kw
                 | None => kw
                 end)
        ∅ ["size"; "init"; "ident"].

Definition var_type_is (var_type : value) (kind : string) : bool :=
  match var_type with
  | VStr s => String.eqb s kind
  | _ => false
  end.

(** Lines 171-179. *)
Definition select_register (self : t) (var_type : value)
    (kwargs : gmap string value) : result (method * gmap string value) :=
  if var_type_is var_type "integer" then
    let? m := writer_method self "register_int" in Ok (m, kwargs)
  else if var_type_is var_type "real" then
    let? m := writer_method self "register_real" in Ok (m, kwargs)
  else if var_type_is var_type "event" then
    let? m := writer_method self "register_event" in Ok (m, kwargs)
  else
    let? m := self_method self "vcd_register_var" in
    Ok (m, <["var_type" := var_type]> kwargs).

(** [len(l) if l else 'z'] *)
Definition users_init (users : list Z) : value :=
  match users with
  | [] => VStr "z"
  | _ => VInt (Z.of_nat (length users))
  end.

(** Lines 181-187. *)
Definition default_init (tgt : target) (kwargs : gmap string value)
  : gmap string value :=
  if dict_has kwargs "init" then kwargs
  else
    match tgt with
    | Container _ level => <["init" := level]> kwargs
    | Resource _ users => <["init" := users_init users]> kwargs
    | Store _ items => <["init" := VInt (Z.of_nat (length items))]> kwargs
    | Other => kwargs
    end.

Definition is_register (ev : event) : bool :=
  match ev with EvRegister _ _ _ _ => true | _ => false end.

(** [register_meth(parent_scope, name, **kwargs)]: the writer records
    the signal and hands back its variable, numbered in registration
    order.  What the writer itself checks is outside this model. *)
Definition call_register (m : method) (parent_scope name : string)
    (kwargs : gmap string value) : M nat :=
  match m with
  | WriterMethod meth =>
      λ w, (Ok (length (filter (λ ev, is_register ev = true) (events w))),
            {| now := now w;
               events := events w ++ [EvRegister meth parent_scope name kwargs] |})
  | TracerMethod _ => raise (TypeError "unexpected arguments")
  end.

Definition activate_probe (self : t) (scope : string) (tgt : target)
    (hints : hint_bag) : M (option callback) :=
  if negb (truthy (Tracer.enabled self)) then raise AssertionError
  else
    let vcd_hints := dict_get hints "vcd" ∅ in
    let! var_type := lift (resolve_var_type scope tgt vcd_hints) in
    let kwargs := select_kwargs vcd_hints in
    let! '(register_meth, kwargs) :=
      lift (select_register self var_type kwargs) in
    let kwargs := default_init tgt kwargs in
    let! '(parent_scope, name) := lift (unpack2 (rsplit1 "."%char scope)) in
    let! var := call_register register_meth parent_scope name kwargs in
    ret (Some (VcdProbe var)).

End VCDTracer.

(** [VCDWriter.change(var, timestamp, value)] belongs to the [vcd]
    package, not to this one.  Whether the writer accepts a change is
    decided there, from what it has been asked so far: with
    [check_values] on it raises for a value that is not valid for the
    variable, and it raises for a timestamp earlier than the last one.
    That decision is taken as an interface: the events so far, the
    variable, the timestamp and the value give [Ok] or the exception. *)
Class Writer := writer_accepts : list event → nat → value → value → result unit.

Definition get_events : M (list event) := λ w, (Ok (events w), w).

(** Calling a probe callback with a value. *)
Definition call_callback `{Formatter} `{Writer} (cb : callback) (v : value)
  : M unit :=
  match cb with
  | LogProbe format_str value_fmt file =>
      let! ts := get_now in
      let! vf := lift (as_str "value_fmt" "format" value_fmt) in
      let! message := lift (Fmt.format vf (<["value" := v]> ∅)) in
      let! line := lift (Fmt.format format_str
                           (<["ts" := ts]> (<["message" := VStr message]> ∅))) in
      let! f := lift (load_attr "LogTracer" "file" file) in
      print [line] f
  | VcdProbe var =>
      let! ts := get_now in
      let! asked := get_events in
      let! _ := lift (writer_accepts asked var ts v) in
      emit (EvChange var ts v)
  end.

(** ** class TraceManager *)

Module TraceManager.

(** The manager's [exit_stack] and [tracers] refer to the two tracer
    objects it owns; the reference says which. *)
Inductive tracer_ref := LogRef | VcdRef.

Record t := mk {
  exit_stack : list tracer_ref;
  log_tracer : LogTracer.t;
  vcd_tracer : VCDTracer.t;
  tracers : list tracer_ref
}.

Definition __init__ (env : Env) : M t :=
  let! log := LogTracer.__init__ env in
  let! vcd := VCDTracer.__init__ env in
  ret (mk [LogRef; VcdRef] (Tracer.__enter__ log) (Tracer.__enter__ vcd)
          [LogRef; VcdRef]).

Definition __enter__ (self : t) : t := self.

Definition tracer_name (r : tracer_ref) : string :=
  match r with
  | LogRef => LogTracer.name
  | VcdRef => VCDTracer.name
  end.

(** [tracer.is_scope_enabled(scope)] *)
Definition tracer_is_scope_enabled (self : t) (r : tracer_ref)
    (scope : string) : result bool :=
  match r with
  | LogRef => LogTracer.is_scope_enabled (log_tracer self) scope VNone
  | VcdRef => Tracer.is_scope_enabled (vcd_tracer self) scope
  end.

(** [tracer.activate_probe(scope, target, **hints)] *)
Definition tracer_activate_probe `{Formatter} (self : t) (r : tracer_ref)
    (scope : string) (tgt : target) (hints : hint_bag)
  : M (option callback) :=
  match r with
  | LogRef => lift (LogTracer.activate_probe (log_tracer self) scope tgt hints)
  | VcdRef => VCDTracer.activate_probe (vcd_tracer self) scope tgt hints
  end.

(** [tracer.__exit__] on the exception details, storing the tracer
    back. *)
Definition tracer_exit `{Formatter} (self : t) (r : tracer_ref)
    (exc : option exc_info) : M (t * bool) :=
  match r with
  | LogRef =>
      let! '(log, suppress) := LogTracer.__exit__ (log_tracer self) exc in
      ret (mk (exit_stack self) log (vcd_tracer self) (tracers self),
           suppress)
  | VcdRef =>
      let! '(vcd, suppress) := Tracer.__exit__ (vcd_tracer self) exc in
      ret (mk (exit_stack self) (log_tracer self) vcd (tracers self),
           suppress)
  end.

(** The loop of [ExitStack.__exit__] over the callbacks still to run,
    next one first.  [pending] is the exception a callback raised. *)
Fixpoint exit_loop `{Formatter} (cbs : list tracer_ref) (self : t)
    (exc : option exc_info) (suppressed : bool) (pending : option exn)
  : M (t * bool) :=
  match cbs with
  | [] =>
      match pending with
      | Some e => raise e
      | None => ret (self, suppressed)
      end
  | r :: cbs' =>
      let! res := catch (tracer_exit self r exc) in
      match res with
      | Ok (self', true) => exit_loop cbs' self' None true None
      | Ok (self', false) => exit_loop cbs' self' exc suppressed pending
      | Err e => exit_loop cbs' self (Some (exn_info e)) suppressed (Some e)
      end
  end.

(** [self.exit_stack.__exit__]: the callbacks are popped, last
    registered first. *)
Definition exit_stack_exit `{Formatter} (self : t) (exc : option exc_info)
  : M (t * bool) :=
  let cbs := rev (exit_stack self) in
  let self := mk [] (log_tracer self) (vcd_tracer self) (tracers self) in
  let received := match exc with Some _ => true | None => false end in
  let! '(self, suppressed) := exit_loop cbs self exc false None in
  ret (self, received && suppressed).

(** The result of the exit stack is dropped: [__exit__] returns [None]
    and never asks for the exception to be suppressed. *)
Definition __exit__ `{Formatter} (self : t) (exc : option exc_info)
  : M (t * bool) :=
  let! '(self, _) := exit_stack_exit self exc in
  ret (self, false).

(** One iteration of the loop of [auto_probe]. *)
Definition probe_tracer `{Formatter} (self : t) (scope : string)
    (tgt : target) (hints : hint_bag) (r : tracer_ref)
    (callbacks : list callback) : M (list callback) :=
  if dict_has hints (tracer_name r) then
    let! en := lift (tracer_is_scope_enabled self r scope) in
    if en then
      let! _ := emit (EvActivate (tracer_name r)) in
      let! callback := tracer_activate_probe self r scope tgt hints in
      match callback with
      | Some cb => ret (callbacks ++ [cb])
      | None => ret callbacks
      end
    else ret callbacks
  else ret callbacks.

Fixpoint probe_loop `{Formatter} (self : t) (scope : string) (tgt : target)
    (hints : hint_bag) (rs : list tracer_ref) (callbacks : list callback)
  : M (list callback) :=
  match rs with
  | [] => ret callbacks
  | r :: rs' =>
      let! callbacks := probe_tracer self scope tgt hints r callbacks in
      probe_loop self scope tgt hints rs' callbacks
  end.

Definition auto_probe `{Formatter} (self : t) (scope : string)
    (tgt : target) (hints : hint_bag) : M unit :=
  let! callbacks := probe_loop self scope tgt hints (tracers self) [] in
  match callbacks with
  | [] => ret tt
  | _ => emit (EvAttach scope tgt callbacks hints)
  end.

End TraceManager.

(** ** Vocabulary for the statements *)

(** The severity levels by name, and the rank the [levels] table gives. *)
Inductive level := ERROR | WARNING | INFO | PROBE | DEBUG.

Definition level_name (l : level) : string :=
  match l with
  | ERROR => "ERROR"
  | WARNING => "WARNING"
  | INFO => "INFO"
  | PROBE => "PROBE"
  | DEBUG => "DEBUG"
  end.

Definition rank (l : level) : Z :=
  match l with
  | ERROR => 1
  | WARNING => 2
  | INFO => 3
  | PROBE => 4
  | DEBUG => 5
  end.

(** The events closing the contexts of an exit stack produces. *)
Definition close_event (r : resource) : event :=
  match r with
  | RFile p => EvClose p
  | RWriter p => EvWriterClose p
  end.

Definition close_events (rs : list resource) : list event :=
  map close_event (rev rs).

Definition is_activate (ev : event) : bool :=
  match ev with EvActivate _ => true | _ => false end.

Definition is_attach (ev : event) : bool :=
  match ev with EvAttach _ _ _ _ => true | _ => false end.

Definition is_print (ev : event) : bool :=
  match ev with EvPrint _ _ => true | _ => false end.

(** A tracer of the manager takes part in a probe: its name is a key of
    the hints and its scope filter accepts the scope. *)
Definition qualifies (self : TraceManager.t) (scope : string)
    (hints : hint_bag) (r : TraceManager.tracer_ref) : bool :=
  dict_has hints (TraceManager.tracer_name r) &&
  match TraceManager.tracer_is_scope_enabled self r scope with
  | Ok b => b
  | Err _ => false
  end.

Definition tracer_enabled (self : TraceManager.t)
    (r : TraceManager.tracer_ref) : bool :=
  match r with
  | TraceManager.LogRef => truthy (Tracer.enabled (TraceManager.log_tracer self))
  | TraceManager.VcdRef => truthy (Tracer.enabled (TraceManager.vcd_tracer self))
  end.

(** The writer method that registers a signal of one of the three
    built-in kinds. *)
Definition register_method (kind : string) : string :=
  if String.eqb kind "integer" then "register_int"
  else if String.eqb kind "real" then "register_real"
  else "register_event".

(** The initial value of a signal as the specification words it: the
    [init] hint if given; else a container's level, a resource's user
    count or the unknown value ['z'] if it has no fixed capacity, a
    store's item count.  Nothing is said for other targets. *)
Definition init_as_specified (vcd_hints : gmap string value) (tgt : target)
  : option value :=
  match vcd_hints !! "init" with
  | Some v => Some v
  | None =>
      match tgt with
      | Container _ level => Some level
      | Resource Unbounded _ => Some (VStr "z")
      | Resource (Bounded _) users => Some (VInt (Z.of_nat (length users)))
      | Store _ items => Some (VInt (Z.of_nat (length items)))
      | Other => None
      end
  end.

(** The same with the resource rule the code has: the user count, or
    ['z'] while there are no users. *)
Definition init_as_resolved (vcd_hints : gmap string value) (tgt : target)
  : option value :=
  match vcd_hints !! "init" with
  | Some v => Some v
  | None =>
      match tgt with
      | Container _ level => Some level
      | Resource _ [] => Some (VStr "z")
      | Resource _ users => Some (VInt (Z.of_nat (length users)))
      | Store _ items => Some (VInt (Z.of_nat (length items)))
      | Other => None
      end
  end.

(** Every successful [activate_probe] of the signal tracer registers one
    signal whose [init] argument is [f] of the hints and the target. *)
Definition registers_init (f : gmap string value → target → option value)
  : Prop :=
  ∀ (self : VCDTracer.t) scope tgt (hints : hint_bag) w cb w',
    VCDTracer.activate_probe self scope tgt hints w = (Ok cb, w') →
    ∃ meth parent name kwargs,
      events w' = events w ++ [EvRegister meth parent name kwargs] ∧
      kwargs !! "init" = f (dict_get hints "vcd" ∅) tgt.

(** [w] once [auto_probe] has reached the call of [r.activate_probe]. *)
Definition at_call (w : world) (r : TraceManager.tracer_ref) : world :=
  {| now := now w;
     events := events w ++ [EvActivate (TraceManager.tracer_name r)] |}.

Definition collected (ocb : option callback) : list callback :=
  match ocb with Some cb => [cb] | None => [] end.

(** Step 1 of [auto_probe] as the specification words it: going through
    the tracers [rs] from world [w], each tracer whose name is a key of
    the hints and whose scope filter accepts the scope has
    [activate_probe] called, and the callbacks that are not [None] are
    collected, in order; the other tracers are passed over. *)
Inductive collects `{Formatter} (self : TraceManager.t) (scope : string)
    (tgt : target) (hints : hint_bag)
  : list TraceManager.tracer_ref → world → list callback → world → Prop :=
| collects_nil w : collects self scope tgt hints [] w [] w
| collects_no_hint r rs w cbs w' :
    dict_has hints (TraceManager.tracer_name r) = false →
    collects self scope tgt hints rs w cbs w' →
    collects self scope tgt hints (r :: rs) w cbs w'
| collects_scope_off r rs w cbs w' :
    TraceManager.tracer_is_scope_enabled self r scope = Ok false →
    collects self scope tgt hints rs w cbs w' →
    collects self scope tgt hints (r :: rs) w cbs w'
| collects_call r rs w ocb w1 cbs w' :
    dict_has hints (TraceManager.tracer_name r) = true →
    TraceManager.tracer_is_scope_enabled self r scope = Ok true →
    TraceManager.tracer_activate_probe self r scope tgt hints (at_call w r)
      = (Ok ocb, w1) →
    collects self scope tgt hints rs w1 cbs w' →
    collects self scope tgt hints (r :: rs) w (collected ocb ++ cbs) w'.

(** Lines 88-92: the record [LogTracer.__exit__] renders for the
    exception [e] at time [ts]. *)
Definition error_record `{Formatter} (self : LogTracer.t) (ts : value)
    (e : exc_info) : result string :=
  let? fmt := LogTracer.load_format_str self in
  let? tsu := LogTracer.load_ts_unit self in
  Fmt.format fmt
    (<["level" := VStr "ERROR"]>
     (<["ts" := ts]>
      (<["ts_unit" := VStr tsu]>
       (<["scope" := VStr "Exception"]>
        (<["message" := VStr (List.last (format_exception e) "")]> ∅))))).

(** The exit with an exception as the specification words it, for every
    constructed manager whose log tracer is enabled and every
    exception: [__exit__] returns without asking for the exception to
    be suppressed (so the original exception goes on), exactly one
    print has gone to the log destination, before anything is
    released, and every tracer has released what its exit stack
    held. *)
Definition exit_reports_as_specified : Prop :=
  ∀ (fm : Formatter) (env : Env) (w0 w1 w : world) (self : TraceManager.t)
    (e : exc_info),
    TraceManager.__init__ env w0 = (Ok self, w1) →
    truthy (dict_get (config env) "sim.log.enable" (VBool false)) = true →
    ∃ self' f text released,
      @TraceManager.__exit__ fm self (Some e) w =
        (Ok (self', false),
         {| now := now w; events := events w ++ EvPrint f text :: released |}) ∧
      filter (λ ev, is_print ev = true) released = [] ∧
      Tracer.exit_stack (TraceManager.log_tracer self') = [] ∧
      Tracer.exit_stack (TraceManager.vcd_tracer self') = [].

(** ** Sample inputs *)

(** A stand-in for the interpreter's [format] on the values the samples
    print: integers in decimal, with three zero decimals under [.3f]. *)
Definition plain_format : Formatter :=
  λ v spec,
    match v with
    | VInt z =>
        if String.eqb spec "" then Ok (pretty z)
        else if String.eqb spec ".3f" then Ok (pretty z +:+ ".000")
        else Err (ValueError "Unknown format code")
    | VNone => Ok "None"
    | _ => Err (TypeError "unsupported format string")
    end.

Definition sample_env : Env :=
  {| config :=
       list_to_map
         [("sim.log.enable", VBool true); ("sim.log.file", VStr "run.log");
          ("sim.log.level", VStr "PROBE");
          ("sim.vcd.enable", VBool true); ("sim.vcd.dump_file", VStr "run.vcd")];
     timescale := (1%Z, "s") |}.

(** No tracer is enabled. *)
Definition quiet_env : Env := {| config := ∅; timescale := (1%Z, "s") |}.

Definition start : world := {| now := VInt 0; events := [] |}.

Definition sample_log : LogTracer.t :=
  Tracer.mk sample_env [RFile "run.log"] (VBool true)
    (Some [Re.Cat Re.Eps (Re.Star Re.AnyChar)]) (Some [])
    (LogTracer.mk_attrs (Some 4%Z) (Some (VStr LogTracer.default_format))
       (Some "s") (Some (File "run.log"))).

Definition sample_vcd : VCDTracer.t :=
  Tracer.mk sample_env [RFile "run.vcd"; RWriter "run.vcd"] (VBool true)
    (Some [Re.Cat Re.Eps (Re.Star Re.AnyChar)]) (Some [])
    (VCDTracer.mk_attrs (Some "run.vcd")).

Definition sample_manager : TraceManager.t :=
  TraceManager.mk [TraceManager.LogRef; TraceManager.VcdRef]
    sample_log sample_vcd [TraceManager.LogRef; TraceManager.VcdRef].

Definition log_opened : world :=
  {| now := VInt 0; events := [EvOpen "run.log"] |}.

Definition opened : world :=
  {| now := VInt 0;
     events := [EvOpen "run.log"; EvOpen "run.vcd";
                EvWriter "run.vcd" (1%Z, "s") (VBool true)] |}.

Definition quiet_log : LogTracer.t :=
  Tracer.mk quiet_env [] (VBool false) None None LogTracer.blank.

Definition boom : exc_info :=
  {| exc_type := "ValueError"; exc_val := "boom";
     exc_tb := ["  File sim.py, line 7, in run" +:+ String Re.newline ""] |}.

(** The log level is not a name of the table. *)
Definition bad_level_env : Env :=
  {| config :=
       list_to_map
         [("sim.log.enable", VBool true); ("sim.log.file", VStr "run.log");
          ("sim.log.level", VStr "TRACE")];
     timescale := (1%Z, "s") |}.

(** The signal tracer is enabled but no dump file is named; the log
    tracer writes to a file. *)
Definition no_dump_env : Env :=
  {| config :=
       list_to_map
         [("sim.log.enable", VBool true); ("sim.log.file", VStr "run.log");
          ("sim.vcd.enable", VBool true)];
     timescale := (1%Z, "s") |}.



(** The log format names a field that [__exit__] does not supply. *)
Definition bad_format_env : Env :=
  {| config :=
       list_to_map
         [("sim.log.enable", VBool true); ("sim.log.file", VStr "run.log");
          ("sim.log.format", VStr "{level} {oops}: {message}");
          ("sim.vcd.enable", VBool true); ("sim.vcd.dump_file", VStr "run.vcd")];
     timescale := (1%Z, "s") |}.

Definition bad_format_manager : TraceManager.t :=
  TraceManager.mk [TraceManager.LogRef; TraceManager.VcdRef]
    (Tracer.mk bad_format_env [RFile "run.log"] (VBool true)
       (Some [Re.Cat Re.Eps (Re.Star Re.AnyChar)]) (Some [])
       (LogTracer.mk_attrs (Some 3%Z) (Some (VStr "{level} {oops}: {message}"))
          (Some "s") (Some (File "run.log"))))
    (Tracer.mk bad_format_env [RFile "run.vcd"; RWriter "run.vcd"] (VBool true)
       (Some [Re.Cat Re.Eps (Re.Star Re.AnyChar)]) (Some [])
       (VCDTracer.mk_attrs (Some "run.vcd")))
    [TraceManager.LogRef; TraceManager.VcdRef].

(** A stand-in for the writer's checks: integer values are accepted,
    anything else is refused as an invalid value. *)
Definition integer_writer : Writer :=
  λ asked var ts v,
    match v with
    | VInt _ => Ok tt
    | _ => Err (ValueError "Invalid value")
    end.

(** * Properties *)

(** ** Regular expressions *)

Section ReFacts.
Import Re.

Lemma append_empty (s1 s2 : string) : s1 +:+ s2 = "" → s1 = "" ∧ s2 = "".
Proof. destruct s1; simpl; [auto | discriminate]. Qed.

Lemma nullable_matches (r : regex) : nullable r = true ↔ matches r "".
Proof.
  split.
  - induction r; simpl; intros Hn; try discriminate.
    + constructor.
    + apply andb_true_iff in Hn as [H1 H2].
      change "" with ("" +:+ ""). constructor; auto.
    + apply orb_true_iff in Hn as [H1 | H2];
        [apply MAltL | apply MAltR]; auto.
    + constructor.
  - intros Hm. remember "" as s eqn:Hs.
    induction Hm; simpl; try discriminate; auto.
    + apply append_empty in Hs as [-> ->].
      rewrite IHHm1, IHHm2; auto.
    + rewrite IHHm; auto.
    + rewrite IHHm; auto using orb_true_r.
Qed.

Lemma deriv_sound (c : ascii) (r : regex) :
  ∀ s, matches (deriv c r) s → matches r (String c s).
Proof.
  induction r; simpl; intros s Hm.
  - inversion Hm.
  - inversion Hm.
  - destruct (Ascii.eqb c c0) eqn:Hc; inversion Hm; subst.
    apply Ascii.eqb_eq in Hc as ->. constructor.
  - destruct (Ascii.eqb c newline) eqn:Hc; inversion Hm; subst.
    constructor. by apply Ascii.eqb_neq.
  - destruct (nullable r1) eqn:Hn.
    + inversion Hm as [| | | | ? ? ? Hl | ? ? ? Hr | |]; subst.
      * inversion Hl; subst.
        change (String c (s1 +:+ s2)) with (String c s1 +:+ s2).
        constructor; auto.
      * change (String c s) with ("" +:+ String c s).
        constructor; auto. by apply nullable_matches.
    + inversion Hm; subst.
      change (String c (s1 +:+ s2)) with (String c s1 +:+ s2).
      constructor; auto.
  - inversion Hm; subst; [apply MAltL | apply MAltR]; auto.
  - inversion Hm; subst.
    change (String c (s1 +:+ s2)) with (String c s1 +:+ s2).
    constructor; auto.
Qed.

Lemma deriv_complete (c : ascii) (r : regex) (w : string) :
  matches r w → ∀ s, w = String c s → matches (deriv c r) s.
Proof.
  induction 1 as [| c' | c' Hc' | r1 r2 s1 s2 H1 IH1 H2 IH2
                  | r1 r2 s0 H1 IH1 | r1 r2 s0 H2 IH2 | r1
                  | r1 s1 s2 H1 IH1 H2 IH2];
    intros s Hw; simpl.
  - discriminate.
  - injection Hw as -> <-. rewrite Ascii.eqb_refl. constructor.
  - injection Hw as -> <-.
    apply Ascii.eqb_neq in Hc'. rewrite Hc'. constructor.
  - destruct s1 as [| a s1']; simpl in Hw.
    + apply nullable_matches in H1. rewrite H1. apply MAltR. auto.
    + injection Hw as -> <-.
      destruct (nullable r1); [apply MAltL |]; constructor; auto.
  - apply MAltL. auto.
  - apply MAltR. auto.
  - discriminate.
  - destruct s1 as [| a s1']; simpl in Hw.
    + auto.
    + injection Hw as -> <-. constructor; auto.
Qed.

Lemma re_match_prefix (s : string) :
  ∀ r, re_match r s = true ↔ matches_prefix r s.
Proof.
  induction s as [| c s IH]; intros r; simpl.
  - rewrite orb_false_r, nullable_matches. split.
    + intros Hm. by exists "", "".
    + intros (p & q & Hs & Hm). symmetry in Hs.
      apply append_empty in Hs as [-> _]. done.
  - rewrite orb_true_iff, nullable_matches, IH. split.
    + intros [Hm | (p & q & -> & Hm)].
      * by exists "", (String c s).
      * exists (String c p), q. split; [done |]. by apply deriv_sound.
    + intros (p & q & Hs & Hm). destruct p as [| a p]; simpl in Hs.
      * by left.
      * injection Hs as <- ->. right. exists p, q. split; [done |].
        by eapply deriv_complete.
Qed.

(** [any(r.match(s) for r in rs)] *)
Lemma any_match_prefix (rs : list regex) (s : string) :
  existsb (λ r, re_match r s) rs = true ↔
  ∃ r, In r rs ∧ matches_prefix r s.
Proof.
  rewrite existsb_exists. split; intros (r & Hin & Hm); exists r;
    (split; [done |]); by apply re_match_prefix.
Qed.

Lemma match_all_prefix (s : string) :
  matches_prefix (Cat Eps (Star AnyChar)) s.
Proof.
  exists "", s. split; [done |].
  change "" with ("" +:+ ""). repeat constructor.
Qed.

End ReFacts.

(** ** The scope filter *)

Lemma is_scope_enabled_eq {X} (self : Tracer.t X) inc exc (scope : string) :
  truthy (Tracer.enabled self) = true →
  Tracer._include_re self = Some inc →
  Tracer._exclude_re self = Some exc →
  Tracer.is_scope_enabled self scope =
    Ok (existsb (λ r, Re.re_match r scope) inc &&
        negb (existsb (λ r, Re.re_match r scope) exc)).
Proof.
  intros Hen Hinc Hexc. unfold Tracer.is_scope_enabled.
  rewrite Hen, Hinc, Hexc. simpl.
  by destruct (existsb _ inc).
Qed.

Lemma is_scope_enabled_disabled {X} (self : Tracer.t X) (scope : string) :
  truthy (Tracer.enabled self) = false →
  Tracer.is_scope_enabled self scope = Ok false.
Proof. intros Hen. unfold Tracer.is_scope_enabled. by rewrite Hen. Qed.

(** C2.  An enabled tracer with compiled include list [inc] and exclude
    list [exc] accepts a scope exactly when some pattern of [inc] matches
    a prefix of the scope and no pattern of [exc] does; the log tracer's
    override, called without a level, decides the same.  A tracer
    constructed from a configuration that names no patterns gets the
    match-everything include pattern and an empty exclude list.  The
    pattern [sim.queue] matches the scope [sim.queue.depth]. *)
Theorem scope_filter_include_exclude {X} (self : Tracer.t X)
    (inc exc : list Re.regex) (scope : string) :
  truthy (Tracer.enabled self) = true →
  Tracer._include_re self = Some inc →
  Tracer._exclude_re self = Some exc →
  (∃ b, Tracer.is_scope_enabled self scope = Ok b) ∧
  (Tracer.is_scope_enabled self scope = Ok true ↔
     (∃ r, In r inc ∧ Re.matches_prefix r scope) ∧
     ¬ (∃ r, In r exc ∧ Re.matches_prefix r scope)) ∧
  (∀ log : LogTracer.t,
     LogTracer.is_scope_enabled log scope VNone =
     Tracer.is_scope_enabled log scope) ∧
  (∀ name open (blank : X) env w t w',
     truthy (dict_get (config env) (("sim." +:+ name +:+ ".") +:+ "enable")
               (VBool false)) = true →
     config env !! (("sim." +:+ name +:+ ".") +:+ "include_pat") = None →
     config env !! (("sim." +:+ name +:+ ".") +:+ "exclude_pat") = None →
     Tracer.__init__ name open blank env w = (Ok t, w') →
     ∃ r, Tracer._include_re t = Some [r] ∧
          Tracer._exclude_re t = Some [] ∧
          Re.compile ".*" = Ok r ∧
          ∀ s, Re.matches_prefix r s) ∧
  (∃ r, Re.compile "sim.queue" = Ok r ∧
        Re.re_match r "sim.queue.depth" = true ∧
        Re.matches_prefix r "sim.queue.depth").
Proof.
  intros Hen Hinc Hexc.
  rewrite (is_scope_enabled_eq self inc exc scope Hen Hinc Hexc).
  split; [eauto |]. split; [| split; [| split]].
  - split.
    + intros [= Hb]. apply andb_true_iff in Hb as [Hi He].
      apply any_match_prefix in Hi. split; [done |].
      intros He'. apply any_match_prefix in He'.
      rewrite He' in He. discriminate.
    + intros [Hi He]. f_equal. apply andb_true_iff. split.
      * by apply any_match_prefix.
      * apply negb_true_iff. apply not_true_is_false.
        intros He'. apply He. by apply any_match_prefix.
  - reflexivity.
  - intros name open blank env w t w' Hon Hip Hep.
    unfold Tracer.__init__. cbn zeta. cbn [Tracer.enabled].
    rewrite Hon. unfold bind.
    destruct (open _ w) as [[t1 | e] w1]; [| discriminate].
    unfold dict_get. rewrite Hip, Hep.
    cbn. intros [= <- <-]. eexists. cbn.
    repeat split. apply match_all_prefix.
  - eexists. split; [reflexivity |]. split; [reflexivity |].
    by apply re_match_prefix.
Qed.

Lemma scope_filter_include_exclude_witness :
  (∃ b, Tracer.is_scope_enabled sample_vcd "sim.queue.depth" = Ok b) ∧
  ∃ r, Tracer._include_re sample_vcd = Some [r] ∧
       ∀ s, Re.matches_prefix r s.
Proof.
  destruct (scope_filter_include_exclude sample_vcd
              [Re.Cat Re.Eps (Re.Star Re.AnyChar)] [] "sim.queue.depth"
              eq_refl eq_refl eq_refl) as (Hb & _ & _ & Hdef & _).
  split; [exact Hb |].
  destruct (Hdef "vcd" VCDTracer.open VCDTracer.blank sample_env log_opened
              sample_vcd opened eq_refl eq_refl eq_refl eq_refl)
    as (r & Hr & _ & _ & Hall).
  exists r. split; [exact Hr | exact Hall].
Defined.

(** ** Construction *)

Lemma init_disabled {X} (name : string) (open : Tracer.t X → M (Tracer.t X))
    (blank : X) (env : Env) (w : world) :
  truthy (dict_get (config env) (("sim." +:+ name +:+ ".") +:+ "enable")
            (VBool false)) = false →
  Tracer.__init__ name open blank env w =
    (Ok (Tracer.mk env []
           (dict_get (config env) (("sim." +:+ name +:+ ".") +:+ "enable")
              (VBool false))
           None None blank), w).
Proof.
  intros Hoff. unfold Tracer.__init__. cbn zeta. cbn [Tracer.enabled].
  by rewrite Hoff.
Qed.

Lemma init_enabled {X} (name : string) (open : Tracer.t X → M (Tracer.t X))
    (blank : X) (env : Env) (w w' : world) (t : Tracer.t X) :
  truthy (dict_get (config env) (("sim." +:+ name +:+ ".") +:+ "enable")
            (VBool false)) = true →
  Tracer.__init__ name open blank env w = (Ok t, w') →
  ∃ t1 inc exc,
    open (Tracer.mk env []
            (dict_get (config env) (("sim." +:+ name +:+ ".") +:+ "enable")
               (VBool false))
            None None blank) w = (Ok t1, w') ∧
    t = Tracer.with_exclude_re (Tracer.with_include_re t1 inc) exc.
Proof.
  intros Hon. unfold Tracer.__init__. cbn zeta. cbn [Tracer.enabled].
  rewrite Hon. unfold bind, lift, ret.
  destruct (open _ w) as [[t1 | e] w1]; [| discriminate].
  destruct (Tracer.compile_all _) as [inc | e]; [| discriminate].
  destruct (Tracer.compile_all _) as [exc | e]; [| discriminate].
  intros [= <- <-]. by exists t1, inc, exc.
Qed.

(** What [LogTracer.open] leaves behind when it returns. *)
Lemma log_open_inv (self t1 : LogTracer.t) (w w1 : world) :
  LogTracer.open self w = (Ok t1, w1) →
  Tracer.enabled t1 = Tracer.enabled self ∧
  ∃ max fmt tsu f,
    Tracer.ext t1 = LogTracer.mk_attrs (Some max) (Some fmt) (Some tsu) (Some f) ∧
    LogTracer.levels_subscript
      (dict_get (config (Tracer.env self)) "sim.log.level" (VStr "INFO"))
    = Ok max ∧
    fmt = dict_get (config (Tracer.env self)) "sim.log.format"
            (VStr LogTracer.default_format) ∧
    Tracer.exit_stack t1 =
      Tracer.exit_stack self ++
      match f with File p => [RFile p] | Stderr => [] end ∧
    events w1 =
      events w ++ match f with File p => [EvOpen p] | Stderr => [] end.
Proof.
  unfold LogTracer.open. cbn zeta. unfold bind, lift, ret, emit.
  destruct (LogTracer.levels_subscript _) as [max | e] eqn:Hmax;
    [| discriminate].
  destruct (timescale (Tracer.env self)) as [ts_n unit].
  destruct (truthy _).
  - destruct (dict_get _ "sim.log.file" VNone) as [| | | | p |];
      try discriminate.
    intros [= <- <-]. split; [done |].
    eexists max, _, _, (File p). by repeat split.
  - intros [= <- <-]. split; [done |].
    eexists max, _, _, Stderr. simpl. by rewrite !app_nil_r.
Qed.

(** What [VCDTracer.open] leaves behind when it returns. *)
Lemma vcd_open_inv (self t1 : VCDTracer.t) (w w1 : world) :
  VCDTracer.open self w = (Ok t1, w1) →
  Tracer.enabled t1 = Tracer.enabled self ∧
  ∃ d evs,
    VCDTracer.vcd (Tracer.ext t1) = Some d ∧
    Tracer.exit_stack t1 = Tracer.exit_stack self ++ [RFile d; RWriter d] ∧
    events w1 = events w ++ EvOpen d :: evs ∧
    ∀ p, ¬ In (EvOpen p) evs.
Proof.
  unfold VCDTracer.open. cbn zeta. unfold bind, lift, ret, emit.
  destruct (subscript _ "sim.vcd.dump_file") as [dump | e]; [| discriminate].
  destruct dump as [| | | | d |]; try discriminate. simpl.
  destruct (truthy _).
  - destruct (subscript _ "sim.gtkw.file") as [save | e]; [| discriminate].
    destruct save as [| | | | sv |]; try discriminate. simpl.
    intros [= <- <-]. split; [done |]. eexists d, _. simpl.
    split; [done |]. split; [by rewrite <- app_assoc |].
    split; [by rewrite <- !app_assoc |].
    intros p [| [| []]]; discriminate.
  - intros [= <- <-]. split; [done |]. eexists d, _. simpl.
    split; [done |]. split; [by rewrite <- app_assoc |].
    split; [by rewrite <- !app_assoc |].
    intros p [| []]; discriminate.
Qed.

Lemma log_init_enabled (env : Env) (w w' : world) (t : LogTracer.t) :
  truthy (dict_get (config env) "sim.log.enable" (VBool false)) = true →
  LogTracer.__init__ env w = (Ok t, w') →
  truthy (Tracer.enabled t) = true ∧
  (∃ inc exc, Tracer._include_re t = Some inc ∧ Tracer._exclude_re t = Some exc) ∧
  ∃ max fmt tsu f,
    Tracer.ext t = LogTracer.mk_attrs (Some max) (Some fmt) (Some tsu) (Some f) ∧
    LogTracer.levels_subscript (dict_get (config env) "sim.log.level" (VStr "INFO"))
    = Ok max ∧
    fmt = dict_get (config env) "sim.log.format" (VStr LogTracer.default_format) ∧
    Tracer.exit_stack t = match f with File p => [RFile p] | Stderr => [] end ∧
    events w' = events w ++ match f with File p => [EvOpen p] | Stderr => [] end.
Proof.
  intros Hon Hinit.
  destruct (init_enabled LogTracer.name LogTracer.open LogTracer.blank
              env w w' t Hon Hinit) as (t1 & inc & exc & Hopen & ->).
  apply log_open_inv in Hopen
    as (Hen & max & fmt & tsu & f & Hext & Hmax & Hfmt & Hst & Hev).
  cbn in Hen, Hmax, Hfmt, Hst. cbn. rewrite Hen. split; [exact Hon |].
  split; [by exists inc, exc |]. by exists max, fmt, tsu, f.
Qed.

(** A constructed tracer is enabled as the configuration says, every
    file it opened is on its exit stack, and a disabled one has an
    empty stack and opened nothing. *)
Lemma log_init_inv (env : Env) (w w' : world) (t : LogTracer.t) :
  LogTracer.__init__ env w = (Ok t, w') →
  Tracer.enabled t = dict_get (config env) "sim.log.enable" (VBool false) ∧
  ∃ evs, events w' = events w ++ evs ∧
         (∀ p, In (EvOpen p) evs → In (RFile p) (Tracer.exit_stack t)) ∧
         (truthy (Tracer.enabled t) = false →
          evs = [] ∧ Tracer.exit_stack t = []).
Proof.
  intros Hinit.
  destruct (truthy (dict_get (config env) "sim.log.enable" (VBool false)))
    eqn:Hon.
  - destruct (init_enabled LogTracer.name LogTracer.open LogTracer.blank
                env w w' t Hon Hinit) as (t1 & inc & exc & Hopen & ->).
    apply log_open_inv in Hopen
      as (Hen & max & fmt & tsu & f & _ & _ & _ & Hst & Hev).
    cbn in Hen, Hst. cbn. rewrite Hen. split; [done |].
    eexists. split; [exact Hev |]. rewrite Hst. split.
    + intros p. destruct f as [| q]; simpl; [done |].
      intros [[= ->] | []]. auto.
    + intros Hoff. exfalso. revert Hoff.
      change (truthy (dict_get (config env) "sim.log.enable" (VBool false))
              = false → False).
      rewrite Hon. discriminate.
  - unfold LogTracer.__init__ in Hinit.
    rewrite (init_disabled LogTracer.name LogTracer.open LogTracer.blank
               env w Hon) in Hinit.
    injection Hinit as <- <-. cbn. split; [done |].
    exists []. by rewrite app_nil_r.
Qed.

Lemma vcd_init_inv (env : Env) (w w' : world) (t : VCDTracer.t) :
  VCDTracer.__init__ env w = (Ok t, w') →
  Tracer.enabled t = dict_get (config env) "sim.vcd.enable" (VBool false) ∧
  ∃ evs, events w' = events w ++ evs ∧
         (∀ p, In (EvOpen p) evs → In (RFile p) (Tracer.exit_stack t)) ∧
         (truthy (Tracer.enabled t) = false →
          evs = [] ∧ Tracer.exit_stack t = []).
Proof.
  intros Hinit.
  destruct (truthy (dict_get (config env) "sim.vcd.enable" (VBool false)))
    eqn:Hon.
  - destruct (init_enabled VCDTracer.name VCDTracer.open VCDTracer.blank
                env w w' t Hon Hinit) as (t1 & inc & exc & Hopen & ->).
    apply vcd_open_inv in Hopen as (Hen & d & evs & _ & Hst & Hev & Hno).
    cbn in Hen, Hst. cbn. rewrite Hen. split; [done |].
    eexists. split; [exact Hev |]. rewrite Hst. split.
    + intros p [[= ->] | Hp]; [simpl; auto | by apply Hno in Hp].
    + intros Hoff. exfalso. revert Hoff.
      change (truthy (dict_get (config env) "sim.vcd.enable" (VBool false))
              = false → False).
      rewrite Hon. discriminate.
  - unfold VCDTracer.__init__ in Hinit.
    rewrite (init_disabled VCDTracer.name VCDTracer.open VCDTracer.blank
               env w Hon) in Hinit.
    injection Hinit as <- <-. cbn. split; [done |].
    exists []. by rewrite app_nil_r.
Qed.

Lemma manager_init_inv (env : Env) (w w' : world) (self : TraceManager.t) :
  TraceManager.__init__ env w = (Ok self, w') →
  TraceManager.exit_stack self = [TraceManager.LogRef; TraceManager.VcdRef] ∧
  TraceManager.tracers self = [TraceManager.LogRef; TraceManager.VcdRef] ∧
  ∃ w1, LogTracer.__init__ env w = (Ok (TraceManager.log_tracer self), w1) ∧
        VCDTracer.__init__ env w1 = (Ok (TraceManager.vcd_tracer self), w').
Proof.
  unfold TraceManager.__init__, bind, ret.
  destruct (LogTracer.__init__ env w) as [[log | e] w1]; [| discriminate].
  destruct (VCDTracer.__init__ env w1) as [[vcd | e] w2] eqn:Hvcd;
    [| discriminate].
  intros [= <- <-]. simpl. split; [done |]. split; [done |].
  exists w1. by rewrite Hvcd.
Qed.

(** ** Severity filtering *)

Lemma levels_rank (l : level) :
  LogTracer.levels !! level_name l = Some (rank l).
Proof. by destruct l. Qed.




(** The closures of [get_log_function]: the silent one does nothing, the
    printing one writes one line, the bound format finished with the
    current time and the message, followed by the extra arguments. *)
Lemma call_log_nothing `{Formatter} (message : value) (args : list value)
    (w : world) :
  LogTracer.call_log_function LogTracer.LogNothing message args w = (Ok tt, w).
Proof. reflexivity. Qed.

Lemma call_log_line `{Formatter} (format_str line : string) (f : sink)
    (message : value) (args : list value) (rest : list string) (w : world) :
  Fmt.format format_str (<["ts" := now w]> (<["message" := message]> ∅))
    = Ok line →
  rmap_list py_str args = Ok rest →
  LogTracer.call_log_function (LogTracer.LogLine format_str (Some f))
    message args w =
    (Ok tt, {| now := now w;
               events := events w ++ [EvPrint f (print_text (line :: rest))] |}).
Proof.
  intros Hline Hrest. unfold LogTracer.call_log_function.
  unfold bind, get_now, lift. by rewrite Hline, Hrest.
Qed.

(** The level test loads [max_level], which only [open] assigns: on a
    tracer that was never opened it raises for every level of the
    table. *)
Lemma log_is_scope_enabled_unopened (t : LogTracer.t) (scope : string)
    (m : level) :
  LogTracer.max_level (Tracer.ext t) = None →
  LogTracer.is_scope_enabled t scope (VStr (level_name m)) =
    Err (AttributeError "LogTracer" "max_level").
Proof.
  intros Hmax. unfold LogTracer.is_scope_enabled. cbn.
  unfold subscript. rewrite levels_rank, Hmax. reflexivity.
Qed.

(** C7.  With the log tracer disabled (an empty configuration),
    [get_log_function('sim.net', 'INFO')] raises [AttributeError] for
    [max_level] instead of returning the silent closure. *)
Theorem get_log_function_disabled_raises :
  LogTracer.__init__ quiet_env start = (Ok quiet_log, start) ∧
  Tracer.is_scope_enabled quiet_log "sim.net" = Ok false ∧
  @LogTracer.is_scope_enabled quiet_log "sim.net" (VStr "INFO") =
    Err (AttributeError "LogTracer" "max_level") ∧
  @LogTracer.get_log_function plain_format quiet_log "sim.net" (VStr "INFO") =
    Err (AttributeError "LogTracer" "max_level").
Proof. repeat split. Qed.

(** ** The signal tracer's [activate_probe] *)

Lemma rsplit_pair_none (c : ascii) (s : string) :
  rsplit_pair c s = None ↔ contains_char c s = false.
Proof.
  induction s as [| a s IH]; simpl; [done |].
  destruct (rsplit_pair c s) as [[p n] |].
  - split; [discriminate |]. intros Hc.
    apply orb_false_iff in Hc as [_ Hc]. apply IH in Hc. discriminate.
  - destruct (Ascii.eqb a c); simpl; [split; discriminate |].
    split; intros _; [by apply IH | done].
Qed.

Lemma unpack_rsplit (s : string) :
  unpack2 (rsplit1 "."%char s) =
    match rsplit_pair "."%char s with
    | Some pn => Ok pn
    | None => Err (ValueError "not enough values to unpack (expected 2, got 1)")
    end.
Proof.
  unfold rsplit1. by destruct (rsplit_pair "."%char s) as [[p n] |].
Qed.

Lemma var_type_is_eq (v : value) (kind : string) :
  VCDTracer.var_type_is v kind = true ↔ v = VStr kind.
Proof.
  destruct v; simpl; try (split; [discriminate | intros [=]]).
  rewrite String.eqb_eq. split; [by intros -> | by intros [= ->]].
Qed.

Lemma select_register_inv (self : VCDTracer.t) (vt : value)
    (kw kw' : gmap string value) (m : VCDTracer.method) :
  VCDTracer.select_register self vt kw = Ok (m, kw') →
  ∃ kind,
    vt = VStr kind ∧ In kind ["integer"; "real"; "event"] ∧
    m = VCDTracer.WriterMethod (register_method kind) ∧ kw' = kw ∧
    is_Some (VCDTracer.vcd (Tracer.ext self)).
Proof.
  unfold VCDTracer.select_register, VCDTracer.writer_method.
  destruct (VCDTracer.var_type_is vt "integer") eqn:Hi;
    [| destruct (VCDTracer.var_type_is vt "real") eqn:Hr;
       [| destruct (VCDTracer.var_type_is vt "event") eqn:He]].
  - apply var_type_is_eq in Hi as ->.
    destruct (VCDTracer.vcd _) as [p |]; [| discriminate].
    intros [= <- <-]. exists "integer". simpl. eauto 10.
  - apply var_type_is_eq in Hr as ->.
    destruct (VCDTracer.vcd _) as [p |]; [| discriminate].
    intros [= <- <-]. exists "real". simpl. eauto 10.
  - apply var_type_is_eq in He as ->.
    destruct (VCDTracer.vcd _) as [p |]; [| discriminate].
    intros [= <- <-]. exists "event". simpl. eauto 10.
  - discriminate.
Qed.


(** An explicit kind outside the three built-in ones reaches the load of
    [self.vcd_register_var], an attribute no [VCDTracer] has. *)
Lemma select_register_other (self : VCDTracer.t) (vt : value)
    (kw : gmap string value) :
  VCDTracer.var_type_is vt "integer" = false →
  VCDTracer.var_type_is vt "real" = false →
  VCDTracer.var_type_is vt "event" = false →
  VCDTracer.select_register self vt kw =
    Err (AttributeError "VCDTracer" "vcd_register_var").
Proof.
  intros Hi Hr He. unfold VCDTracer.select_register.
  by rewrite Hi, Hr, He.
Qed.

(** The outcome of the whole method: an exception leaves the world as it
    was; a return has gone through every step and registered once. *)
Lemma vcd_activate_inv (self : VCDTracer.t) scope tgt (hints : hint_bag)
    w res w' :
  VCDTracer.activate_probe self scope tgt hints w = (res, w') →
  match res with
  | Err _ => w' = w
  | Ok cb =>
      truthy (Tracer.enabled self) = true ∧
      ∃ kind parent name,
        VCDTracer.resolve_var_type scope tgt (dict_get hints "vcd" ∅)
          = Ok (VStr kind) ∧
        In kind ["integer"; "real"; "event"] ∧
        rsplit_pair "."%char scope = Some (parent, name) ∧
        events w' = events w ++
          [EvRegister (register_method kind) parent name
             (VCDTracer.default_init tgt
                (VCDTracer.select_kwargs (dict_get hints "vcd" ∅)))] ∧
        now w' = now w ∧
        cb = Some (VcdProbe
                     (length (filter (λ ev, VCDTracer.is_register ev = true)
                                (events w))))
  end.
Proof.
  unfold VCDTracer.activate_probe.
  destruct (truthy (Tracer.enabled self)); simpl;
    [| unfold raise; by intros [= <- <-]].
  unfold bind, lift, ret.
  destruct (VCDTracer.resolve_var_type _ _ _) as [vt | e] eqn:Hvt;
    [| by intros [= <- <-]].
  destruct (VCDTracer.select_register _ _ _) as [[m kw] | e] eqn:Hsel;
    [| by intros [= <- <-]].
  apply select_register_inv in Hsel as (kind & -> & Hkind & -> & -> & _).
  rewrite unpack_rsplit.
  destruct (rsplit_pair "."%char scope) as [[parent name] |] eqn:Hsplit;
    [| by intros [= <- <-]].
  simpl. intros [= <- <-]. split; [done |].
  exists kind, parent, name. by repeat split.
Qed.



Lemma select_kwargs_init (vh : gmap string value) :
  VCDTracer.select_kwargs vh !! "init" = vh !! "init".
Proof.
  unfold VCDTracer.select_kwargs. simpl.
  destruct (vh !! "size"), (vh !! "init") eqn:Hinit, (vh !! "ident");
    by simplify_map_eq.
Qed.

Lemma default_init_lookup (vh : gmap string value) (tgt : target) :
  VCDTracer.default_init tgt (VCDTracer.select_kwargs vh) !! "init" =
  init_as_resolved vh tgt.
Proof.
  unfold VCDTracer.default_init, dict_has, init_as_resolved.
  rewrite select_kwargs_init.
  destruct (vh !! "init") eqn:Hinit.
  - by rewrite select_kwargs_init.
  - destruct tgt as [cap level | cap [| u users] | cap items |];
      rewrite ?lookup_insert_eq, ?select_kwargs_init; done.
Qed.

(** C4, as the code has it.  When [activate_probe] returns it has
    registered one signal whose [init] argument is the [init] hint if one
    was given; otherwise a [Container]'s level, for a [Resource] its
    number of users or ['z'] while it has no users, and a [Store]'s
    number of items. *)
Theorem init_resolution (self : VCDTracer.t) (scope : string) (tgt : target)
    (hints : hint_bag) (w w' : world) (cb : option callback) :
  VCDTracer.activate_probe self scope tgt hints w = (Ok cb, w') →
  ∃ meth parent name kwargs,
    events w' = events w ++ [EvRegister meth parent name kwargs] ∧
    kwargs !! "init" =
      match dict_get hints "vcd" ∅ !! "init" with
      | Some v => Some v
      | None =>
          match tgt with
          | Container _ level => Some level
          | Resource _ [] => Some (VStr "z")
          | Resource _ users => Some (VInt (Z.of_nat (length users)))
          | Store _ items => Some (VInt (Z.of_nat (length items)))
          | Other => None
          end
      end.
Proof.
  intros Hact. apply vcd_activate_inv in Hact
    as (_ & kind & parent & name & _ & _ & _ & Hev & _).
  eexists _, parent, name, _. split; [exact Hev |].
  apply default_init_lookup.
Qed.

Lemma init_resolution_witness :
  ∃ meth parent name kwargs,
    [EvRegister "register_int" "sim.cpu" "users"
       {["init" := VInt 2]}] = [EvRegister meth parent name kwargs] ∧
    kwargs !! "init" = Some (VInt 2).
Proof.
  assert (Hrun : VCDTracer.activate_probe sample_vcd "sim.cpu.users"
                   (Resource (Bounded 4) [7%Z; 9%Z]) {["vcd" := ∅]} start =
                 (Ok (Some (VcdProbe 0)),
                  {| now := VInt 0;
                     events := [EvRegister "register_int" "sim.cpu" "users"
                                  {["init" := VInt 2]}] |}))
    by (vm_compute; reflexivity).
  destruct (init_resolution _ _ _ _ _ _ _ Hrun)
    as (meth & parent & name & kwargs & Hev & Hinit).
  exists meth, parent, name, kwargs. split; [exact Hev |].
  rewrite Hinit. vm_compute. reflexivity.
Defined.

(** C4, as the specification words it, fails: a [Resource] of capacity 1
    with no users is registered with ['z'], not with its user count 0. *)
Lemma init_as_specified_fails : ¬ registers_init init_as_specified.
Proof.
  intros Hspec.
  assert (Hrun : VCDTracer.activate_probe sample_vcd "sim.cpu.users"
                   (Resource (Bounded 1) []) {["vcd" := ∅]} start =
                 (Ok (Some (VcdProbe 0)),
                  {| now := VInt 0;
                     events := [EvRegister "register_int" "sim.cpu" "users"
                                  {["init" := VStr "z"]}] |}))
    by (vm_compute; reflexivity).
  destruct (Hspec _ _ _ _ _ _ _ Hrun)
    as (meth & parent & name & kwargs & Hev & Hinit).
  simpl in Hev. injection Hev as _ _ _ <-.
  vm_compute in Hinit. discriminate.
Qed.

(** An explicit [var_type] outside integer, real and event: the call
    raises [AttributeError] for [vcd_register_var] and registers nothing,
    whatever the scope, the target and the other hints. *)
Lemma other_var_type_always_raises (self : VCDTracer.t) scope tgt
    (hints : hint_bag) w kind :
  truthy (Tracer.enabled self) = true →
  dict_get hints "vcd" ∅ !! "var_type" = Some (VStr kind) →
  ¬ In kind ["integer"; "real"; "event"] →
  VCDTracer.activate_probe self scope tgt hints w =
    (Err (AttributeError "VCDTracer" "vcd_register_var"), w).
Proof.
  intros Hen Hvt Hkind.
  unfold VCDTracer.activate_probe. rewrite Hen. simpl.
  unfold bind, lift. unfold VCDTracer.resolve_var_type at 1.
  unfold dict_get at 1. rewrite Hvt.
  rewrite select_register_other; [done | | |]; simpl;
    apply String.eqb_neq; intros ->; apply Hkind; simpl; auto.
Qed.

(** C5.  With the hints [var_type='wire', size=8] on an enabled signal
    tracer, [activate_probe] raises [AttributeError] for
    [vcd_register_var]; no signal is registered and no callback is
    returned. *)
Theorem other_var_type_raises :
  VCDTracer.activate_probe sample_vcd "sim.bus.data"
    (Container Unbounded (VInt 0))
    {["vcd" := <["var_type" := VStr "wire"]> {["size" := VInt 8]}]} opened
  = (Err (AttributeError "VCDTracer" "vcd_register_var"), opened).
Proof. reflexivity. Qed.

(** C10.  On a scope without a dot [activate_probe] always raises and
    registers nothing; once the kind and the registration method are
    settled the exception is the [ValueError] of unpacking the
    one-element result of [rsplit].  Whenever [activate_probe] returns,
    its scope has a dot. *)
Theorem dotless_scope_raises (self : VCDTracer.t) (scope : string)
    (tgt : target) (hints : hint_bag) (w : world) :
  contains_char "."%char scope = false →
  rsplit1 "."%char scope = [scope] ∧
  (∃ e, VCDTracer.activate_probe self scope tgt hints w = (Err e, w)) ∧
  (∀ vt m kwargs,
     truthy (Tracer.enabled self) = true →
     VCDTracer.resolve_var_type scope tgt (dict_get hints "vcd" ∅) = Ok vt →
     VCDTracer.select_register self vt
       (VCDTracer.select_kwargs (dict_get hints "vcd" ∅)) = Ok (m, kwargs) →
     VCDTracer.activate_probe self scope tgt hints w =
       (Err (ValueError "not enough values to unpack (expected 2, got 1)"),
        w)) ∧
  (∀ scope' cb w',
     VCDTracer.activate_probe self scope' tgt hints w = (Ok cb, w') →
     contains_char "."%char scope' = true).
Proof.
  intros Hdot. pose proof (proj2 (rsplit_pair_none "."%char scope) Hdot) as Hnone.
  split; [by unfold rsplit1; rewrite Hnone |].
  split; [| split].
  - destruct (VCDTracer.activate_probe self scope tgt hints w)
      as [[cb | e] w'] eqn:Hact.
    + apply vcd_activate_inv in Hact
        as (_ & kind & parent & name & _ & _ & Hsplit & _).
      rewrite Hnone in Hsplit. discriminate.
    + apply vcd_activate_inv in Hact as ->. eauto.
  - intros vt m kwargs Hen Hvt Hsel. unfold VCDTracer.activate_probe.
    rewrite Hen. simpl. unfold bind, lift. rewrite Hvt, Hsel.
    by rewrite unpack_rsplit, Hnone.
  - intros scope' cb w' Hact. apply vcd_activate_inv in Hact
      as (_ & kind & parent & name & _ & _ & Hsplit & _).
    destruct (contains_char "."%char scope') eqn:Hc; [done |].
    apply rsplit_pair_none in Hc. rewrite Hc in Hsplit. discriminate.
Qed.

Lemma dotless_scope_raises_witness :
  VCDTracer.activate_probe sample_vcd "depth" (Container Unbounded (VInt 3))
    {["vcd" := ∅]} opened =
  (Err (ValueError "not enough values to unpack (expected 2, got 1)"), opened).
Proof.
  destruct (dotless_scope_raises sample_vcd "depth"
              (Container Unbounded (VInt 3)) {["vcd" := ∅]} opened eq_refl)
    as (_ & _ & Hraise & _).
  exact (Hraise (VStr "integer") (VCDTracer.WriterMethod "register_int") ∅
           eq_refl eq_refl eq_refl).
Defined.

(** ** The dispatch of [auto_probe] *)

Section Dispatch.
Context `{Formatter}.

Lemma tracer_name_inj (r r' : TraceManager.tracer_ref) :
  TraceManager.tracer_name r = TraceManager.tracer_name r' → r = r'.
Proof. by destruct r, r'. Qed.

(** A tracer's [activate_probe] marks no call and attaches nothing, and
    leaves the clock alone. *)
Lemma tracer_activate_trace (self : TraceManager.t) r scope tgt
    (hints : hint_bag) w res w' :
  TraceManager.tracer_activate_probe self r scope tgt hints w = (res, w') →
  ∃ evs, events w' = events w ++ evs ∧
         filter (λ ev, is_activate ev = true) evs = [] ∧
         filter (λ ev, is_attach ev = true) evs = [].
Proof.
  destruct r; simpl.
  - unfold lift. intros [= <- <-]. exists []. by rewrite app_nil_r.
  - intros Hact. apply vcd_activate_inv in Hact. destruct res as [cb | e].
    + destruct Hact as (_ & kind & parent & name & _ & _ & _ & Hev & _).
      eexists. split; [exact Hev |]. done.
    + subst w'. exists []. by rewrite app_nil_r.
Qed.

Lemma qualifies_true (self : TraceManager.t) scope (hints : hint_bag) r :
  qualifies self scope hints r = true ↔
  dict_has hints (TraceManager.tracer_name r) = true ∧
  TraceManager.tracer_is_scope_enabled self r scope = Ok true.
Proof.
  unfold qualifies. rewrite andb_true_iff.
  destruct (TraceManager.tracer_is_scope_enabled self r scope) as [b | e].
  - split; intros [Hh Hb]; split; congruence.
  - split; intros [Hh Hb]; discriminate.
Qed.

(** One iteration, whatever its outcome. *)
Lemma probe_tracer_trace (self : TraceManager.t) scope tgt (hints : hint_bag)
    r cbs w res w' :
  TraceManager.probe_tracer self scope tgt hints r cbs w = (res, w') →
  ∃ evs, events w' = events w ++ evs ∧
         filter (λ ev, is_attach ev = true) evs = [] ∧
         filter (λ ev, is_activate ev = true) evs =
           (if qualifies self scope hints r
            then [EvActivate (TraceManager.tracer_name r)] else []) ∧
         match res with
         | Ok cbs' =>
             ∃ new, cbs' = cbs ++ new ∧
                    collects self scope tgt hints [r] w new w'
         | Err _ => True
         end.
Proof.
  unfold TraceManager.probe_tracer, qualifies.
  destruct (dict_has hints (TraceManager.tracer_name r)) eqn:Hh; simpl.
  - unfold bind at 1. unfold lift at 1.
    destruct (TraceManager.tracer_is_scope_enabled self r scope)
      as [[|] | e] eqn:Hen.
    + unfold bind, emit. fold (at_call w r).
      destruct (TraceManager.tracer_activate_probe self r scope tgt hints
                  (at_call w r)) as [[ocb | e] w1] eqn:Hact.
      * destruct (tracer_activate_trace _ _ _ _ _ _ _ _ Hact)
          as (evs & Hev & Hna & Hnt).
        simpl in Hev.
        assert (Hcol : collects self scope tgt hints [r] w
                         (collected ocb ++ []) w1)
          by (eapply collects_call; eauto; constructor).
        rewrite app_nil_r in Hcol.
        destruct ocb as [cb |]; unfold ret; intros [= <- <-];
          (exists (EvActivate (TraceManager.tracer_name r) :: evs);
           split; [by rewrite Hev, <- app_assoc |];
           split; [by rewrite filter_cons_False |];
           split; [by rewrite filter_cons_True, Hna |]);
          [exists [cb] | exists []]; by rewrite ?app_nil_r.
      * destruct (tracer_activate_trace _ _ _ _ _ _ _ _ Hact)
          as (evs & Hev & Hna & Hnt).
        simpl in Hev. intros [= <- <-].
        exists (EvActivate (TraceManager.tracer_name r) :: evs).
        split; [by rewrite Hev, <- app_assoc |].
        split; [by rewrite filter_cons_False |].
        split; [by rewrite filter_cons_True, Hna | done].
    + unfold ret. intros [= <- <-]. exists []. rewrite !app_nil_r.
      repeat split. exists []. rewrite app_nil_r. split; [done |].
      apply collects_scope_off; [done | constructor].
    + intros [= <- <-]. exists []. by rewrite !app_nil_r.
  - unfold ret. intros [= <- <-]. exists []. rewrite !app_nil_r.
    repeat split. exists []. rewrite app_nil_r. split; [done |].
    apply collects_no_hint; [done | constructor].
Qed.

Lemma collects_app (self : TraceManager.t) scope tgt (hints : hint_bag)
    rs1 rs2 w cbs1 w1 cbs2 w2 :
  collects self scope tgt hints rs1 w cbs1 w1 →
  collects self scope tgt hints rs2 w1 cbs2 w2 →
  collects self scope tgt hints (rs1 ++ rs2) w (cbs1 ++ cbs2) w2.
Proof.
  induction 1; intros Hrest; simpl; [done | | |].
  - apply collects_no_hint; auto.
  - apply collects_scope_off; auto.
  - rewrite <- app_assoc. eapply collects_call; eauto.
Qed.

Lemma filter_qualifies_cons (self : TraceManager.t) scope (hints : hint_bag)
    r rs :
  map (λ r, EvActivate (TraceManager.tracer_name r))
    (filter (λ r, qualifies self scope hints r = true) (r :: rs)) =
  (if qualifies self scope hints r
   then [EvActivate (TraceManager.tracer_name r)] else []) ++
  map (λ r, EvActivate (TraceManager.tracer_name r))
    (filter (λ r, qualifies self scope hints r = true) rs).
Proof.
  destruct (qualifies self scope hints r) eqn:Hq.
  - by rewrite filter_cons_True.
  - rewrite filter_cons_False; [done |]. by rewrite Hq.
Qed.

(** The loop: calls are marked for a prefix of the qualifying tracers,
    and for all of them when the loop runs to its end. *)
Lemma probe_loop_trace (self : TraceManager.t) scope tgt (hints : hint_bag)
    rs : ∀ cbs w res w',
  TraceManager.probe_loop self scope tgt hints rs cbs w = (res, w') →
  ∃ evs, events w' = events w ++ evs ∧
         filter (λ ev, is_attach ev = true) evs = [] ∧
         (∀ n, In (EvActivate n) evs →
               ∃ r, In r rs ∧ TraceManager.tracer_name r = n ∧
                    qualifies self scope hints r = true) ∧
         match res with
         | Ok cbs' =>
             filter (λ ev, is_activate ev = true) evs =
               map (λ r, EvActivate (TraceManager.tracer_name r))
                 (filter (λ r, qualifies self scope hints r = true) rs) ∧
             ∃ new, cbs' = cbs ++ new ∧
                    collects self scope tgt hints rs w new w'
         | Err _ => True
         end.
Proof.
  induction rs as [| r rs IH]; intros cbs w res w'; simpl.
  - unfold ret. intros [= <- <-]. exists []. rewrite app_nil_r.
    repeat split; [by intros n [] |].
    exists []. rewrite app_nil_r. split; [done | constructor].
  - unfold bind.
    destruct (TraceManager.probe_tracer self scope tgt hints r cbs w)
      as [[cbs1 | e] w1] eqn:Hstep;
      destruct (probe_tracer_trace _ _ _ _ _ _ _ _ _ Hstep)
        as (evs1 & Hev1 & Hnt1 & Hact1 & Hres1).
    + intros Hloop.
      destruct (IH _ _ _ _ Hloop) as (evs2 & Hev2 & Hnt2 & Hin2 & Hres2).
      exists (evs1 ++ evs2).
      split; [by rewrite Hev2, Hev1, app_assoc |].
      split; [by rewrite filter_app, Hnt1, Hnt2 |].
      split.
      * intros n Hn. apply in_app_or in Hn as [Hn | Hn].
        -- assert (Hn' : In (EvActivate n)
                           (filter (λ ev, is_activate ev = true) evs1))
             by (apply list_elem_of_In, list_elem_of_filter;
                 split; [done | by apply list_elem_of_In]).
           rewrite Hact1 in Hn'.
           destruct (qualifies self scope hints r) eqn:Hq; [| done].
           destruct Hn' as [[= <-] | []]. exists r. simpl. auto.
        -- destruct (Hin2 n Hn) as (r' & Hr' & Hname & Hq).
           exists r'. simpl. auto.
      * destruct res as [cbs' | e]; [| done].
        destruct Hres2 as (Hact2 & new2 & -> & Hcol2).
        destruct Hres1 as (new1 & -> & Hcol1).
        split.
        -- by rewrite filter_app, Hact1, Hact2, filter_qualifies_cons.
        -- exists (new1 ++ new2). split; [by rewrite app_assoc |].
           apply (collects_app _ _ _ _ [r] rs _ _ _ _ _ Hcol1 Hcol2).
    + intros [= <- <-]. exists evs1.
      split; [done |]. split; [done |]. split; [| done].
      intros n Hn.
      assert (Hn' : In (EvActivate n)
                      (filter (λ ev, is_activate ev = true) evs1))
        by (apply list_elem_of_In, list_elem_of_filter;
            split; [done | by apply list_elem_of_In]).
      rewrite Hact1 in Hn'.
      destruct (qualifies self scope hints r) eqn:Hq; [| done].
      destruct Hn' as [[= <-] | []]. exists r. simpl. auto.
Qed.

End Dispatch.

(** C1.  In every call of [auto_probe], [activate_probe] is only called
    on a tracer whose name is a key of the hints and whose
    [is_scope_enabled(scope)] is true.  When the call returns, it has
    been called on exactly these tracers, once each and in the order of
    [tracers]; the callbacks collected are the non-[None] results of
    those calls; [attach] has been called once, last, with the scope,
    the target, these callbacks and the hints when at least one callback
    was collected, and not at all when none was.  When a tracer raises,
    the exception leaves [auto_probe] and nothing is attached. *)
Theorem auto_probe_dispatch `{Formatter} (self : TraceManager.t)
    (scope : string) (tgt : target) (hints : hint_bag) (w w' : world)
    (res : result unit) :
  TraceManager.auto_probe self scope tgt hints w = (res, w') →
  ∃ evs,
    events w' = events w ++ evs ∧
    (∀ r, In (EvActivate (TraceManager.tracer_name r)) evs →
          In r (TraceManager.tracers self) ∧
          dict_has hints (TraceManager.tracer_name r) = true ∧
          TraceManager.tracer_is_scope_enabled self r scope = Ok true) ∧
    match res with
    | Ok _ =>
        ∃ callbacks w1,
          (∀ r, In r (TraceManager.tracers self) →
             (In (EvActivate (TraceManager.tracer_name r)) evs ↔
              dict_has hints (TraceManager.tracer_name r) = true ∧
              TraceManager.tracer_is_scope_enabled self r scope = Ok true)) ∧
          filter (λ ev, is_activate ev = true) evs =
            map (λ r, EvActivate (TraceManager.tracer_name r))
              (filter (λ r, qualifies self scope hints r = true)
                 (TraceManager.tracers self)) ∧
          collects self scope tgt hints (TraceManager.tracers self) w
            callbacks w1 ∧
          filter (λ ev, is_attach ev = true) evs =
            match callbacks with
            | [] => []
            | _ => [EvAttach scope tgt callbacks hints]
            end ∧
          events w' =
            events w1 ++
            match callbacks with
            | [] => []
            | _ => [EvAttach scope tgt callbacks hints]
            end
    | Err _ => filter (λ ev, is_attach ev = true) evs = []
    end.
Proof.
  unfold TraceManager.auto_probe, bind.
  destruct (TraceManager.probe_loop self scope tgt hints
              (TraceManager.tracers self) [] w) as [[cbs | e] w1] eqn:Hloop;
    destruct (probe_loop_trace _ _ _ _ _ _ _ _ _ Hloop)
      as (evs0 & Hev0 & Hnt0 & Hin0 & Hres0).
  2:{ intros [= <- <-]. exists evs0. split; [done |]. split; [| done].
      intros r Hin. destruct (Hin0 _ Hin) as (r' & Hr' & Hname & Hq).
      apply tracer_name_inj in Hname as ->. split; [done |].
      by apply qualifies_true. }
  destruct Hres0 as (Hact0 & new & Hnew & Hcol).
  simpl in Hnew. subst new.
  set (tail := match cbs with
               | [] => []
               | _ => [EvAttach scope tgt cbs hints]
               end).
  intros Hlast.
  assert (Hw' : events w' = events w1 ++ tail ∧ ∃ u, res = Ok u).
  { destruct cbs; unfold ret, emit in Hlast; injection Hlast as <- <-;
      subst tail; simpl; rewrite ?app_nil_r; eauto. }
  destruct Hw' as (Hw' & u & ->).
  assert (Htail_act : filter (λ ev, is_activate ev = true) tail = [])
    by (subst tail; by destruct cbs).
  assert (Htail_att : filter (λ ev, is_attach ev = true) tail = tail)
    by (subst tail; by destruct cbs).
  assert (Hsound : ∀ r, In (EvActivate (TraceManager.tracer_name r))
                          (evs0 ++ tail) →
                        In r (TraceManager.tracers self) ∧
                        qualifies self scope hints r = true).
  { intros r Hin. apply in_app_or in Hin as [Hin | Hin].
    - destruct (Hin0 _ Hin) as (r' & Hr' & Hname & Hq).
      by apply tracer_name_inj in Hname as ->.
    - subst tail. destruct cbs; [done |].
      destruct Hin as [| []]; discriminate. }
  exists (evs0 ++ tail).
  split; [by rewrite Hw', Hev0, app_assoc |].
  split.
  { intros r Hin. destruct (Hsound r Hin) as [Hr Hq].
    split; [done |]. by apply qualifies_true. }
  exists cbs, w1.
  split; [| split; [| split; [| split]]].
  - intros r Hr. rewrite <- qualifies_true. split.
    + intros Hin. by destruct (Hsound r Hin).
    + intros Hq. apply in_or_app. left.
      assert (Hin : In (EvActivate (TraceManager.tracer_name r))
                      (filter (λ ev, is_activate ev = true) evs0)).
      { rewrite Hact0. apply in_map_iff. exists r. split; [done |].
        apply list_elem_of_In, list_elem_of_filter.
        split; [done | by apply list_elem_of_In]. }
      apply list_elem_of_In, list_elem_of_filter in Hin as [_ Hin].
      by apply list_elem_of_In.
  - by rewrite filter_app, Htail_act, app_nil_r.
  - exact Hcol.
  - by rewrite filter_app, Hnt0, Htail_att.
  - exact Hw'.
Qed.

Lemma auto_probe_dispatch_witness :
  ∃ evs callbacks w1,
    events
      {| now := VInt 0;
         events := [EvActivate "log"; EvActivate "vcd";
                    EvRegister "register_int" "sim.tank" "level"
                      {["init" := VInt 3]};
                    EvAttach "sim.tank.level" (Container Unbounded (VInt 3))
                      [LogProbe "PROBE {ts:.3f} s: sim.tank.level: {message}"
                         (VStr "{value}") (Some (File "run.log"));
                       VcdProbe 0]
                      (<["log" := ∅]> {["vcd" := ∅]})] |}
    = events start ++ evs ∧
    filter (λ ev, is_attach ev = true) evs =
      match callbacks with
      | [] => []
      | _ => [EvAttach "sim.tank.level" (Container Unbounded (VInt 3))
                callbacks (<["log" := ∅]> {["vcd" := ∅]})]
      end ∧
    @collects plain_format sample_manager "sim.tank.level"
      (Container Unbounded (VInt 3)) (<["log" := ∅]> {["vcd" := ∅]})
      (TraceManager.tracers sample_manager) start callbacks w1.
Proof.
  assert (Hrun :
    @TraceManager.auto_probe plain_format sample_manager "sim.tank.level"
      (Container Unbounded (VInt 3)) (<["log" := ∅]> {["vcd" := ∅]}) start =
    (Ok tt,
     {| now := VInt 0;
        events := [EvActivate "log"; EvActivate "vcd";
                   EvRegister "register_int" "sim.tank" "level"
                     {["init" := VInt 3]};
                   EvAttach "sim.tank.level" (Container Unbounded (VInt 3))
                     [LogProbe "PROBE {ts:.3f} s: sim.tank.level: {message}"
                        (VStr "{value}") (Some (File "run.log"));
                      VcdProbe 0]
                     (<["log" := ∅]> {["vcd" := ∅]})] |}))
    by (vm_compute; reflexivity).
  destruct (@auto_probe_dispatch plain_format _ _ _ _ _ _ _ Hrun)
    as (evs & Hev & _ & callbacks & w1 & _ & _ & Hcol & Hatt & _).
  exists evs, callbacks, w1. split; [exact Hev |].
  split; [exact Hatt | exact Hcol].
Defined.

(** C9.  A tracer whose [enable] setting is false is constructed without
    calling [open] (whatever [open] would do, the world is unchanged and
    the result does not depend on it): nothing is opened, no pattern is
    compiled, the exit stack is empty.  Its [is_scope_enabled(scope)] is
    false for every scope, also through the log tracer's override; a
    manager's tracers are enabled as the configuration says and a
    disabled one has opened nothing; and no run of [auto_probe], normal
    or not, calls the [activate_probe] of a disabled tracer. *)
Theorem disabled_tracer_is_inert {X} (name : string)
    (open : Tracer.t X → M (Tracer.t X)) (blank : X) (env : Env) (w : world) :
  truthy (dict_get (config env) (("sim." +:+ name +:+ ".") +:+ "enable")
            (VBool false)) = false →
  (∃ t, Tracer.__init__ name open blank env w = (Ok t, w) ∧
        truthy (Tracer.enabled t) = false ∧
        Tracer.exit_stack t = [] ∧
        Tracer._include_re t = None ∧ Tracer._exclude_re t = None ∧
        Tracer.ext t = blank ∧
        ∀ scope, Tracer.is_scope_enabled t scope = Ok false) ∧
  (∀ (log : LogTracer.t) scope,
     truthy (Tracer.enabled log) = false →
     LogTracer.is_scope_enabled log scope VNone = Ok false) ∧
  (∀ env' w0 w1 self r,
     TraceManager.__init__ env' w0 = (Ok self, w1) →
     tracer_enabled self r =
       truthy (dict_get (config env')
                 (("sim." +:+ TraceManager.tracer_name r +:+ ".") +:+ "enable")
                 (VBool false)) ∧
     (tracer_enabled self TraceManager.LogRef = false →
      Tracer.exit_stack (TraceManager.log_tracer self) = []) ∧
     (tracer_enabled self TraceManager.VcdRef = false →
      Tracer.exit_stack (TraceManager.vcd_tracer self) = []) ∧
     (tracer_enabled self TraceManager.LogRef = false →
      tracer_enabled self TraceManager.VcdRef = false →
      events w1 = events w0)) ∧
  (∀ (fm : Formatter) self r scope tgt hints w0 res w1,
     tracer_enabled self r = false →
     @TraceManager.auto_probe fm self scope tgt hints w0 = (res, w1) →
     ∃ evs, events w1 = events w0 ++ evs ∧
            ¬ In (EvActivate (TraceManager.tracer_name r)) evs).
Proof.
  intros Hoff. split; [| split; [| split]].
  - eexists. split; [by apply init_disabled |]. cbn.
    repeat split; [done |]. intros scope.
    by apply is_scope_enabled_disabled.
  - intros log scope Hlog. unfold LogTracer.is_scope_enabled. cbn.
    by apply is_scope_enabled_disabled.
  - intros env' w0 w1 self r Hinit.
    apply manager_init_inv in Hinit as (_ & _ & wl & Hlog & Hvcd).
    apply log_init_inv in Hlog as (Hlen & levs & Hlev & _ & Hloff).
    apply vcd_init_inv in Hvcd as (Hven & vevs & Hvev & _ & Hvoff).
    split; [| split; [| split]].
    + destruct r; simpl; [by rewrite Hlen | by rewrite Hven].
    + simpl. intros Hl. by apply Hloff.
    + simpl. intros Hv. by apply Hvoff.
    + simpl. intros Hl Hv.
      destruct (Hloff Hl) as [-> _]. destruct (Hvoff Hv) as [-> _].
      rewrite app_nil_r in Hlev. rewrite app_nil_r in Hvev. congruence.
  - intros fm self r scope tgt hints w0 res w1 Hdis.
    assert (Hq : qualifies self scope hints r = false).
    { unfold qualifies. apply andb_false_iff. right.
      destruct r; simpl in *.
      - unfold LogTracer.is_scope_enabled. cbn.
        by rewrite is_scope_enabled_disabled.
      - by rewrite is_scope_enabled_disabled. }
    unfold TraceManager.auto_probe, bind.
    destruct (TraceManager.probe_loop self scope tgt hints
                (TraceManager.tracers self) [] w0) as [[cbs | e] w2] eqn:Hloop;
      destruct (probe_loop_trace _ _ _ _ _ _ _ _ _ Hloop)
        as (evs0 & Hev0 & _ & Hin0 & _).
    + assert (Hno : ¬ In (EvActivate (TraceManager.tracer_name r)) evs0).
      { intros Hin. destruct (Hin0 _ Hin) as (r' & _ & Hname & Hq').
        apply tracer_name_inj in Hname as ->. congruence. }
      destruct cbs; unfold ret, emit; intros [= <- <-].
      * by exists evs0.
      * eexists (evs0 ++ [_]). simpl. rewrite Hev0, <- app_assoc.
        split; [done |]. intros Hin. apply in_app_or in Hin as [| [| []]];
          [done | discriminate].
    + intros [= <- <-]. exists evs0. split; [done |].
      intros Hin. destruct (Hin0 _ Hin) as (r' & _ & Hname & Hq').
      apply tracer_name_inj in Hname as ->. congruence.
Qed.

Lemma disabled_tracer_is_inert_witness :
  (∃ t, LogTracer.__init__ quiet_env start = (Ok t, start) ∧
        Tracer.exit_stack t = [] ∧
        ∀ scope, Tracer.is_scope_enabled t scope = Ok false) ∧
  ∃ evs, [EvActivate "vcd";
          EvRegister "register_int" "sim.tank" "level" {["init" := VInt 3]};
          EvAttach "sim.tank.level" (Container Unbounded (VInt 3))
            [VcdProbe 0] (<["log" := ∅]> {["vcd" := ∅]})]
         = events start ++ evs ∧
         ¬ In (EvActivate "log") evs.
Proof.
  destruct (disabled_tracer_is_inert "log" LogTracer.open LogTracer.blank
              quiet_env start eq_refl) as ((t & Hinit & _ & Hst & _ & _ & _ & Hoff)
                                           & _ & _ & Hprobe).
  split; [exists t; split; [exact Hinit | split; [exact Hst | exact Hoff]] |].
  assert (Hrun :
    @TraceManager.auto_probe plain_format
      (TraceManager.mk [TraceManager.LogRef; TraceManager.VcdRef]
         quiet_log sample_vcd [TraceManager.LogRef; TraceManager.VcdRef])
      "sim.tank.level" (Container Unbounded (VInt 3))
      (<["log" := ∅]> {["vcd" := ∅]}) start =
    (Ok tt,
     {| now := VInt 0;
        events := [EvActivate "vcd";
                   EvRegister "register_int" "sim.tank" "level"
                     {["init" := VInt 3]};
                   EvAttach "sim.tank.level" (Container Unbounded (VInt 3))
                     [VcdProbe 0] (<["log" := ∅]> {["vcd" := ∅]})] |}))
    by (vm_compute; reflexivity).
  refine (Hprobe plain_format _ TraceManager.LogRef _ _ _ _ _ _ _ Hrun).
  reflexivity.
Defined.

(** ** Leaving the tracing scope *)

Lemma close_all_run (rs : list resource) : ∀ w,
  Tracer.close_all rs w =
    (Ok tt, {| now := now w; events := events w ++ close_events rs |}).
Proof.
  induction rs as [| r rs IH]; intros w; simpl.
  - unfold ret, close_events. simpl. rewrite app_nil_r. by destruct w.
  - unfold bind. rewrite IH. unfold close_events. simpl.
    rewrite map_app, app_assoc. by destruct r.
Qed.

Lemma tracer_exit_run {X} (self : Tracer.t X) (exc : option exc_info)
    (w : world) :
  Tracer.__exit__ self exc w =
    (Ok (Tracer.with_exit_stack self [], false),
     {| now := now w;
        events := events w ++ close_events (Tracer.exit_stack self) |}).
Proof.
  unfold Tracer.__exit__, Tracer.close, bind. by rewrite close_all_run.
Qed.

Lemma close_events_no_print (rs : list resource) :
  filter (λ ev, is_print ev = true) (close_events rs) = [].
Proof.
  unfold close_events. induction (rev rs) as [| r l IH]; [done |].
  simpl. rewrite filter_cons_False; [done |]. by destruct r.
Qed.

Lemma close_events_file (rs : list resource) (p : string) :
  In (RFile p) rs → In (EvClose p) (close_events rs).
Proof.
  intros Hin. unfold close_events. apply in_map_iff.
  exists (RFile p). split; [done |]. by apply in_rev in Hin.
Qed.

Lemma append_nil_r (s : string) : s +:+ "" = s.
Proof.
  induction s as [| c s IH]; [done |].
  change (String c (s +:+ "") = String c s). by f_equal.
Qed.

Lemma last_format_exception (e : exc_info) :
  List.last (format_exception e) "" = format_exception_only e.
Proof.
  unfold format_exception. rewrite app_comm_cons. apply last_last.
Qed.

Section Exit.
Context `{Formatter}.

Lemma log_exit_run (self : LogTracer.t) (e : exc_info) (w : world)
    (line : string) (f : sink) :
  truthy (Tracer.enabled self) = true →
  error_record self (now w) e = Ok line →
  LogTracer.load_file self = Ok f →
  LogTracer.__exit__ self (Some e) w =
    (Ok (Tracer.with_exit_stack self [], false),
     {| now := now w;
        events := events w ++
          EvPrint f (print_text (line :: String Re.newline ""
                                   :: format_exception e))
          :: close_events (Tracer.exit_stack self) |}).
Proof.
  intros Hen Hline Hfile. unfold LogTracer.__exit__. rewrite Hen.
  unfold error_record in Hline. unfold bind at 1 2 3. unfold lift at 1.
  destruct (LogTracer.load_format_str self) as [fmt |]; [| discriminate].
  unfold get_now at 1. unfold bind at 1 2. unfold lift at 1.
  destruct (LogTracer.load_ts_unit self) as [tsu |]; [| discriminate].
  cbn [rbind] in Hline. unfold bind at 1 2. unfold lift at 1. rewrite Hline.
  unfold lift. rewrite Hfile. unfold print, emit, Tracer.close, bind.
  rewrite close_all_run. simpl. by rewrite <- app_assoc.
Qed.

(** With the default format the record is the ERROR line of the default
    layout, once the clock value formats under [.3f]. *)
Lemma default_error_record (self : LogTracer.t) (ts : value) (e : exc_info)
    (tsu s : string) :
  LogTracer.format_str (Tracer.ext self) = Some (VStr LogTracer.default_format) →
  LogTracer.ts_unit (Tracer.ext self) = Some tsu →
  py_format ts ".3f" = Ok s →
  error_record self ts e =
    Ok ("ERROR " +:+ s +:+ " " +:+ tsu +:+ ": Exception: "
        +:+ format_exception_only e).
Proof.
  intros Hfmt Htsu Hts.
  unfold error_record, LogTracer.load_format_str, LogTracer.load_ts_unit.
  rewrite Hfmt, Htsu, last_format_exception.
  cbn [rbind load_attr as_str]. unfold Fmt.format.
  change (Fmt.parse LogTracer.default_format) with
    (Ok [Fmt.Field "level" ""; Fmt.Lit " "; Fmt.Field "ts" ".3f";
         Fmt.Lit " "; Fmt.Field "ts_unit" ""; Fmt.Lit ": ";
         Fmt.Field "scope" ""; Fmt.Lit ": "; Fmt.Field "message" ""]).
  cbn [rbind Fmt.render]. unfold subscript.
  assert (Hf : Fmt.format_field ts ".3f" = Ok s) by (by destruct ts).
  simplify_map_eq. cbn [rbind Fmt.format_field String.eqb]. rewrite Hf.
  cbn [rbind]. f_equal. rewrite append_nil_r. reflexivity.
Qed.

End Exit.

(** C8.  A manager constructed with the log tracer enabled is left with
    an exception [e] whose final record renders to [line].  Then
    [__exit__] returns without asking for the exception to be
    suppressed, so [e] goes on to the caller.  What it did, in order:
    the signal tracer closed its writer and file; the log tracer printed
    once, the ERROR record followed by the traceback, to its
    destination; the log tracer closed its file.  The record's message
    is the last line of the formatted traceback; every exit stack is
    empty afterwards and every file opened at construction has been
    closed.  With the default format the record is the line
    [ERROR <time> <unit>: Exception: <type>: <value>]. *)
Theorem exit_reports_exception `{Formatter} (env : Env) (w0 w1 w : world)
    (self : TraceManager.t) (e : exc_info) (line : string) :
  TraceManager.__init__ env w0 = (Ok self, w1) →
  truthy (dict_get (config env) "sim.log.enable" (VBool false)) = true →
  error_record (TraceManager.log_tracer self) (now w) e = Ok line →
  ∃ f self' evs,
    LogTracer.load_file (TraceManager.log_tracer self) = Ok f ∧
    TraceManager.__exit__ self (Some e) w =
      (Ok (self', false), {| now := now w; events := events w ++ evs |}) ∧
    evs =
      close_events (Tracer.exit_stack (TraceManager.vcd_tracer self)) ++
      EvPrint f (print_text (line :: String Re.newline ""
                               :: format_exception e))
      :: close_events (Tracer.exit_stack (TraceManager.log_tracer self)) ∧
    filter (λ ev, is_print ev = true) evs =
      [EvPrint f (print_text (line :: String Re.newline ""
                                :: format_exception e))] ∧
    List.last (format_exception e) "" = format_exception_only e ∧
    Tracer.exit_stack (TraceManager.log_tracer self) =
      match f with File p => [RFile p] | Stderr => [] end ∧
    Tracer.exit_stack (TraceManager.log_tracer self') = [] ∧
    Tracer.exit_stack (TraceManager.vcd_tracer self') = [] ∧
    TraceManager.exit_stack self' = [] ∧
    (∀ p evs0, events w1 = events w0 ++ evs0 → In (EvOpen p) evs0 →
               In (EvClose p) evs) ∧
    (config env !! "sim.log.format" = None →
     ∀ s, py_format (now w) ".3f" = Ok s →
          ∃ tsu, LogTracer.load_ts_unit (TraceManager.log_tracer self) = Ok tsu ∧
                 line = "ERROR " +:+ s +:+ " " +:+ tsu +:+ ": Exception: "
                        +:+ format_exception_only e).
Proof.
  intros Hinit Hon Hline.
  destruct (manager_init_inv _ _ _ _ Hinit) as (Hstack & _ & wl & Hlog & Hvcd).
  destruct (log_init_enabled _ _ _ _ Hon Hlog)
    as (Hen & _ & max & fmt & tsu & f & Hext & _ & Hfmt & Hlst & _).
  destruct (log_init_inv _ _ _ _ Hlog) as (_ & levs & Hlev & Hlopen & _).
  destruct (vcd_init_inv _ _ _ _ Hvcd) as (_ & vevs & Hvev & Hvopen & _).
  assert (Hfile : LogTracer.load_file (TraceManager.log_tracer self) = Ok f)
    by (unfold LogTracer.load_file; by rewrite Hext).
  destruct self as [st log vcd trs]. simpl in *. subst st.
  set (w2 := {| now := now w;
                events := events w ++ close_events (Tracer.exit_stack vcd) |}).
  assert (Hline2 : error_record log (now w2) e = Ok line) by done.
  exists f. eexists. eexists.
  split; [done |]. split.
  { unfold TraceManager.__exit__, TraceManager.exit_stack_exit. simpl rev.
    cbn [TraceManager.log_tracer TraceManager.vcd_tracer TraceManager.tracers].
    unfold bind at 1 2. cbn [TraceManager.exit_loop].
    unfold bind at 1. unfold catch at 1.
    unfold TraceManager.tracer_exit at 1.
    cbn [TraceManager.log_tracer TraceManager.vcd_tracer TraceManager.tracers
         TraceManager.exit_stack].
    unfold bind at 1. rewrite tracer_exit_run. fold w2.
    unfold ret at 1. unfold ret at 1.
    unfold bind at 1. unfold catch at 1.
    unfold TraceManager.tracer_exit at 1.
    cbn [TraceManager.log_tracer TraceManager.vcd_tracer TraceManager.tracers
         TraceManager.exit_stack].
    unfold bind at 1.
    rewrite (log_exit_run log e w2 line f Hen Hline2 Hfile).
    unfold ret. subst w2. simpl. rewrite <- app_assoc. reflexivity. }
  split; [reflexivity |].
  split.
  { rewrite filter_app, filter_cons_True by done.
    by rewrite !close_events_no_print. }
  split; [apply last_format_exception |].
  split; [exact Hlst |].
  split; [done |]. split; [done |]. split; [done |].
  split.
  - intros p evs0 Hev0 Hin.
    rewrite Hvev, Hlev, <- app_assoc in Hev0.
    apply app_inv_head in Hev0 as <-.
    apply in_app_or in Hin as [Hin | Hin].
    + apply in_or_app. right. right.
      apply close_events_file. by apply Hlopen.
    + apply in_or_app. left. apply close_events_file. by apply Hvopen.
  - intros Hdef s Hs. exists tsu.
    split; [unfold LogTracer.load_ts_unit; by rewrite Hext |].
    unfold dict_get in Hfmt. rewrite Hdef in Hfmt.
    assert (Hrec := default_error_record log (now w) e tsu s).
    rewrite Hext in Hrec. specialize (Hrec ltac:(by rewrite Hfmt) eq_refl Hs).
    rewrite Hrec in Hline. by injection Hline as <-.
Qed.

Lemma exit_reports_exception_witness :
  ∃ self' evs,
    @TraceManager.__exit__ plain_format sample_manager (Some boom) opened =
      (Ok (self', false),
       {| now := now opened; events := events opened ++ evs |}) ∧
    evs = [EvWriterClose "run.vcd"; EvClose "run.vcd";
           EvPrint (File "run.log")
             (print_text
                (("ERROR 0.000 s: Exception: ValueError: boom"
                  +:+ String Re.newline "")
                 :: String Re.newline "" :: format_exception boom));
           EvClose "run.log"].
Proof.
  assert (Hinit : TraceManager.__init__ sample_env start
                  = (Ok sample_manager, opened))
    by (vm_compute; reflexivity).
  assert (Hline : @error_record plain_format
                    (TraceManager.log_tracer sample_manager) (now opened) boom
                  = Ok ("ERROR 0.000 s: Exception: ValueError: boom"
                        +:+ String Re.newline ""))
    by (vm_compute; reflexivity).
  destruct (@exit_reports_exception plain_format sample_env start opened
              opened sample_manager boom _ Hinit eq_refl Hline)
    as (f & self' & evs & Hfile & Hexit & Hevs & _).
  exists self', evs. split; [exact Hexit |].
  rewrite Hevs. injection Hfile as <-. reflexivity.
Defined.

(** C8, as the specification words it, fails, on two counts.  First,
    the configuration may name a record format with a field the tracer
    does not supply ([{oops}]).  The manager is constructed, both files
    are opened.  At the exit with an exception the signal tracer closes
    its writer and file; rendering the record then raises [KeyError],
    before anything is printed and before the log tracer closes: no
    line is written, [run.log] is never closed, and [__exit__] raises
    the [KeyError] in place of returning, so the caller sees it and not
    the original exception.  Second, with a format that renders, the
    line is not written before every release: the signal tracer was
    entered last, so its writer and file are closed first. *)
Lemma exit_as_specified_fails :
  TraceManager.__init__ bad_format_env start = (Ok bad_format_manager, opened) ∧
  @TraceManager.__exit__ plain_format bad_format_manager (Some boom) opened =
    (Err (KeyError "oops"),
     {| now := now opened;
        events := events opened ++
                  [EvWriterClose "run.vcd"; EvClose "run.vcd"] |}) ∧
  (∃ self' text,
     @TraceManager.__exit__ plain_format sample_manager (Some boom) opened =
       (Ok (self', false),
        {| now := now opened;
           events := events opened ++
                     [EvWriterClose "run.vcd"; EvClose "run.vcd";
                      EvPrint (File "run.log") text; EvClose "run.log"] |})) ∧
  ¬ exit_reports_as_specified.
Proof.
  assert (Hinit : TraceManager.__init__ bad_format_env start
                  = (Ok bad_format_manager, opened))
    by (vm_compute; reflexivity).
  assert (Hexit : @TraceManager.__exit__ plain_format bad_format_manager
                    (Some boom) opened =
                  (Err (KeyError "oops"),
                   {| now := now opened;
                      events := events opened ++
                                [EvWriterClose "run.vcd"; EvClose "run.vcd"] |}))
    by (vm_compute; reflexivity).
  split; [exact Hinit |]. split; [exact Hexit |]. split.
  - eexists _, _. vm_compute. reflexivity.
  - intros Hspec.
    destruct (Hspec plain_format bad_format_env start opened opened
                bad_format_manager boom Hinit eq_refl)
      as (self' & f & text & released & Hok & _).
    rewrite Hexit in Hok. discriminate Hok.
Qed.

(** * Further properties of the code *)

(** ** The scope filter is hierarchical *)

Lemma string_app_assoc (a b c : string) :
  (a +:+ b) +:+ c = a +:+ (b +:+ c).
Proof.
  induction a as [| x a IH]; [done |].
  change (String x ((a +:+ b) +:+ c) = String x (a +:+ (b +:+ c))).
  by f_equal.
Qed.

Lemma matches_prefix_extend (r : Re.regex) (s t : string) :
  Re.matches_prefix r s → Re.matches_prefix r (s +:+ t).
Proof.
  intros (p & q & -> & Hm). exists p, (q +:+ t).
  split; [apply string_app_assoc | done].
Qed.

Lemma any_match_extend (rs : list Re.regex) (s t : string) :
  existsb (λ r, Re.re_match r s) rs = true →
  existsb (λ r, Re.re_match r (s +:+ t)) rs = true.
Proof.
  rewrite !any_match_prefix. intros (r & Hin & Hm).
  exists r. split; [done |]. by apply matches_prefix_extend.
Qed.

(** X1.  Plain patterns only: the include and exclude patterns are made
    of literal characters, [.], escaped punctuation and the quantifiers
    [*], [+], [?] (the patterns [Re.compile] parses; an anchor such as
    [$], a group, a class or a lookaround is none of these, and with
    them the property fails).  Such patterns match prefixes, so the
    filter of an enabled tracer follows the hierarchy of scopes: a scope
    that an exclude pattern matches is rejected together with every
    scope that extends it; an accepted scope stays accepted when
    extended, unless an exclude pattern matches the longer scope; with
    no exclude patterns every extension of an accepted scope is
    accepted. *)
Theorem scope_filter_hereditary {X} (self : Tracer.t X)
    (include_pat exclude_pat : list string)
    (inc exc : list Re.regex) (scope ext : string) :
  truthy (Tracer.enabled self) = true →
  Tracer.compile_all (VStrs include_pat) = Ok inc →
  Tracer.compile_all (VStrs exclude_pat) = Ok exc →
  Tracer._include_re self = Some inc →
  Tracer._exclude_re self = Some exc →
  ((∃ r, In r exc ∧ Re.matches_prefix r scope) →
   Tracer.is_scope_enabled self (scope +:+ ext) = Ok false) ∧
  (Tracer.is_scope_enabled self scope = Ok true →
   ¬ (∃ r, In r exc ∧ Re.matches_prefix r (scope +:+ ext)) →
   Tracer.is_scope_enabled self (scope +:+ ext) = Ok true) ∧
  (exc = [] →
   Tracer.is_scope_enabled self scope = Ok true →
   Tracer.is_scope_enabled self (scope +:+ ext) = Ok true).
Proof.
  intros Hen _ _ Hinc Hexc.
  rewrite !(is_scope_enabled_eq self inc exc _ Hen Hinc Hexc).
  assert (Hkeep : existsb (λ r, Re.re_match r scope) inc &&
                  negb (existsb (λ r, Re.re_match r scope) exc) = true →
                  existsb (λ r, Re.re_match r (scope +:+ ext)) inc = true).
  { intros Hb. apply andb_true_iff in Hb as [Hi _].
    by apply any_match_extend. }
  split; [| split].
  - intros Hex. apply any_match_prefix in Hex.
    apply (any_match_extend exc scope ext) in Hex.
    rewrite Hex. by rewrite andb_false_r.
  - intros [= Hb] Hno. rewrite (Hkeep Hb). simpl. f_equal.
    apply negb_true_iff, not_true_is_false. intros Hex.
    apply Hno. by apply any_match_prefix.
  - intros -> [= Hb]. by rewrite (Hkeep Hb).
Qed.

Lemma scope_filter_hereditary_witness :
  Tracer.is_scope_enabled sample_vcd ("sim.queue" +:+ ".depth") = Ok true.
Proof.
  destruct (scope_filter_hereditary sample_vcd [".*"] []
              [Re.Cat Re.Eps (Re.Star Re.AnyChar)] [] "sim.queue" ".depth"
              eq_refl eq_refl eq_refl eq_refl eq_refl) as (_ & _ & Hext).
  exact (Hext eq_refl eq_refl).
Defined.

(** ** Closing a tracer *)

(** X2.  [close] leaves the contexts of the exit stack, last entered
    first, and empties the stack; closing again does nothing. *)
Theorem close_twice {X} (self : Tracer.t X) (w : world) :
  ∃ self1 w1,
    Tracer.close self w = (Ok self1, w1) ∧
    events w1 = events w ++ map close_event (rev (Tracer.exit_stack self)) ∧
    now w1 = now w ∧
    Tracer.exit_stack self1 = [] ∧
    Tracer.close self1 w1 = (Ok self1, w1).
Proof.
  eexists _, _. split.
  - unfold Tracer.close, bind. rewrite close_all_run. reflexivity.
  - split; [done |]. split; [done |]. split; [done |].
    unfold Tracer.close, bind. rewrite close_all_run.
    cbn. unfold close_events. cbn. by rewrite app_nil_r.
Qed.

(** ** Construction: what is opened, and when it fails *)

(** The constructor of an enabled tracer, step by step. *)
Lemma init_enabled_eq {X} (name : string) (open : Tracer.t X → M (Tracer.t X))
    (blank : X) (env : Env) (w : world) :
  truthy (dict_get (config env) (("sim." +:+ name +:+ ".") +:+ "enable")
            (VBool false)) = true →
  Tracer.__init__ name open blank env w =
    match open (Tracer.mk env []
                  (dict_get (config env)
                     (("sim." +:+ name +:+ ".") +:+ "enable") (VBool false))
                  None None blank) w with
    | (Ok t1, w1) =>
        match Tracer.compile_all
                (dict_get (config env)
                   (("sim." +:+ name +:+ ".") +:+ "include_pat")
                   (VStrs [".*"])) with
        | Ok inc =>
            match Tracer.compile_all
                    (dict_get (config env)
                       (("sim." +:+ name +:+ ".") +:+ "exclude_pat")
                       (VStrs [])) with
            | Ok exc =>
                (Ok (Tracer.with_exclude_re (Tracer.with_include_re t1 inc) exc),
                 w1)
            | Err e => (Err e, w1)
            end
        | Err e => (Err e, w1)
        end
    | (Err e, w1) => (Err e, w1)
    end.
Proof.
  intros Hon. unfold Tracer.__init__. cbn zeta. cbn [Tracer.enabled].
  rewrite Hon. unfold bind, lift, ret.
  destruct (open _ w) as [[t1 | e] w1]; [| done].
  destruct (Tracer.compile_all _) as [inc | e]; [| done].
  by destruct (Tracer.compile_all _) as [exc | e].
Qed.

Lemma log_open_result (self : LogTracer.t) (w : world) (ts_n : Z)
    (unit : string) :
  timescale (Tracer.env self) = (ts_n, unit) →
  LogTracer.open self w =
    match LogTracer.levels_subscript
            (dict_get (config (Tracer.env self)) "sim.log.level" (VStr "INFO"))
    with
    | Err e => (Err e, w)
    | Ok max =>
        let attrs f :=
          LogTracer.mk_attrs (Some max)
            (Some (dict_get (config (Tracer.env self)) "sim.log.format"
                     (VStr LogTracer.default_format)))
            (Some (if (ts_n =? 1)%Z then unit
                   else "(" +:+ pretty ts_n +:+ unit +:+ ")"))
            (Some f) in
        if truthy (dict_get (config (Tracer.env self)) "sim.log.file" VNone)
        then
          match dict_get (config (Tracer.env self)) "sim.log.file" VNone with
          | VStr p =>
              (Ok (Tracer.enter_context
                     (Tracer.with_ext self (attrs (File p))) (RFile p)),
               {| now := now w; events := events w ++ [EvOpen p] |})
          | _ => (Err (TypeError "expected str"), w)
          end
        else (Ok (Tracer.with_ext self (attrs Stderr)), w)
    end.
Proof.
  intros Hts. unfold LogTracer.open. cbn zeta. rewrite Hts.
  unfold bind, lift, ret, emit.
  destruct (LogTracer.levels_subscript _) as [max | e]; [| done].
  destruct (truthy _); [| done].
  by destruct (dict_get _ "sim.log.file" VNone).
Qed.

(** X3.  An enabled log tracer, once constructed: its time unit is the
    unit of the time scale when the factor is 1 and ["(<factor><unit>)"]
    otherwise; without [sim.log.level] the maximum level is that of INFO;
    without a file name (or with an empty one) it writes to standard
    error, opens nothing and has nothing to close; with a file name it
    has opened exactly that file and holds it on its exit stack. *)
Theorem log_open_outcome (env : Env) (w w' : world) (t : LogTracer.t) :
  truthy (dict_get (config env) "sim.log.enable" (VBool false)) = true →
  LogTracer.__init__ env w = (Ok t, w') →
  LogTracer.ts_unit (Tracer.ext t) =
    Some (if (fst (timescale env) =? 1)%Z then snd (timescale env)
          else "(" +:+ pretty (fst (timescale env)) +:+ snd (timescale env)
               +:+ ")") ∧
  (config env !! "sim.log.level" = None →
   LogTracer.max_level (Tracer.ext t) = Some (rank INFO)) ∧
  (truthy (dict_get (config env) "sim.log.file" VNone) = false →
   LogTracer.file (Tracer.ext t) = Some Stderr ∧ w' = w ∧
   Tracer.exit_stack t = []) ∧
  (∀ p, config env !! "sim.log.file" = Some (VStr p) → p ≠ "" →
        LogTracer.file (Tracer.ext t) = Some (File p) ∧
        events w' = events w ++ [EvOpen p] ∧
        Tracer.exit_stack t = [RFile p]).
Proof.
  intros Hon. unfold LogTracer.__init__.
  rewrite (init_enabled_eq LogTracer.name LogTracer.open LogTracer.blank
             env w Hon).
  destruct (timescale env) as [ts_n unit] eqn:Hts.
  rewrite (log_open_result (Tracer.mk env [] _ None None LogTracer.blank)
             w ts_n unit Hts). cbn [Tracer.env].
  destruct (LogTracer.levels_subscript _) as [max | e] eqn:Hmax;
    [| discriminate].
  cbn zeta.
  destruct (truthy (dict_get (config env) "sim.log.file" VNone)) eqn:Hfile.
  - destruct (dict_get (config env) "sim.log.file" VNone) as [| | | | q |]
      eqn:Hq; try discriminate.
    destruct (Tracer.compile_all _) as [inc | e]; [| discriminate].
    destruct (Tracer.compile_all _) as [exc | e]; [| discriminate].
    intros [= <- <-]. cbn. split; [done |]. split.
    + intros Hnone. unfold dict_get in Hmax. rewrite Hnone in Hmax.
      by injection Hmax as <-.
    + split; [done |]. intros p Hp _. unfold dict_get in Hq.
      rewrite Hp in Hq. by injection Hq as <-.
  - destruct (Tracer.compile_all _) as [inc | e]; [| discriminate].
    destruct (Tracer.compile_all _) as [exc | e]; [| discriminate].
    intros [= <- <-]. cbn. split; [done |]. split.
    + intros Hnone. unfold dict_get in Hmax. rewrite Hnone in Hmax.
      by injection Hmax as <-.
    + split; [done |]. intros p Hp Hne. unfold dict_get in Hfile.
      rewrite Hp in Hfile. cbn in Hfile.
      apply negb_false_iff, String.eqb_eq in Hfile. done.
Qed.

Lemma log_open_outcome_witness :
  LogTracer.file (Tracer.ext sample_log) = Some (File "run.log") ∧
  events log_opened = events start ++ [EvOpen "run.log"] ∧
  Tracer.exit_stack sample_log = [RFile "run.log"].
Proof.
  destruct (log_open_outcome sample_env start log_opened sample_log
              eq_refl eq_refl) as (_ & _ & _ & Hfile).
  apply (Hfile "run.log"); [reflexivity | discriminate].
Defined.

(** X4.  A [sim.log.level] that is not a name of the table makes the
    construction of an enabled log tracer, and with it that of the
    manager, raise [KeyError] for that name; the level is looked up
    before the log file is opened, so nothing has been opened. *)
Theorem log_unknown_level_config (env : Env) (w : world) (s : string) :
  truthy (dict_get (config env) "sim.log.enable" (VBool false)) = true →
  config env !! "sim.log.level" = Some (VStr s) →
  LogTracer.levels !! s = None →
  LogTracer.__init__ env w = (Err (KeyError s), w) ∧
  TraceManager.__init__ env w = (Err (KeyError s), w).
Proof.
  intros Hon Hlevel Hs.
  assert (Hlog : LogTracer.__init__ env w = (Err (KeyError s), w)).
  { unfold LogTracer.__init__.
    rewrite (init_enabled_eq LogTracer.name LogTracer.open LogTracer.blank
               env w Hon).
    destruct (timescale env) as [ts_n unit] eqn:Hts.
    rewrite (log_open_result (Tracer.mk env [] _ None None LogTracer.blank)
             w ts_n unit Hts). cbn [Tracer.env].
    unfold dict_get at 1. rewrite Hlevel.
    cbn [LogTracer.levels_subscript]. unfold subscript.
    by rewrite Hs. }
  split; [exact Hlog |].
  unfold TraceManager.__init__, bind. by rewrite Hlog.
Qed.

Lemma log_unknown_level_config_witness :
  TraceManager.__init__ bad_level_env start = (Err (KeyError "TRACE"), start).
Proof.
  exact (proj2 (log_unknown_level_config bad_level_env start "TRACE"
                  eq_refl eq_refl eq_refl)).
Defined.

Lemma vcd_open_result (self : VCDTracer.t) (w : world) :
  VCDTracer.open self w =
    match subscript (config (Tracer.env self)) "sim.vcd.dump_file" with
    | Err e => (Err e, w)
    | Ok (VStr d) =>
        let w1 :=
          {| now := now w;
             events := events w ++
               [EvOpen d;
                EvWriter d (timescale (Tracer.env self))
                  (dict_get (config (Tracer.env self)) "sim.vcd.check_values"
                     (VBool true))] |} in
        let t1 :=
          Tracer.enter_context
            (Tracer.with_ext (Tracer.enter_context self (RFile d))
               (VCDTracer.mk_attrs (Some d)))
            (RWriter d) in
        if truthy (dict_get (config (Tracer.env self)) "sim.gtkw.live" VNone)
        then
          match subscript (config (Tracer.env self)) "sim.gtkw.file" with
          | Err e => (Err e, w1)
          | Ok (VStr sv) =>
              (Ok t1, {| now := now w;
                         events := events w1 ++ [EvSpawnViewer d sv] |})
          | Ok _ => (Err (TypeError "expected str"), w1)
          end
        else (Ok t1, w1)
    | Ok _ => (Err (TypeError "expected str"), w)
    end.
Proof.
  unfold VCDTracer.open. cbn zeta. unfold bind, lift, ret, emit.
  destruct (subscript _ "sim.vcd.dump_file") as [dump | e]; [| done].
  destruct dump as [| | | | d |]; try done. cbn.
  rewrite <- app_assoc. cbn.
  destruct (truthy _); [| done].
  destruct (subscript _ "sim.gtkw.file") as [save | e]; [| done].
  by destruct save.
Qed.

(** X5.  An enabled signal tracer needs [sim.vcd.dump_file]: without it
    the construction of the tracer, and of a manager whose log tracer
    is disabled, raises [KeyError] for that key with nothing opened
    (there is no fallback as the log tracer has). *)
Theorem vcd_missing_dump_file (env : Env) (w : world) :
  truthy (dict_get (config env) "sim.vcd.enable" (VBool false)) = true →
  config env !! "sim.vcd.dump_file" = None →
  VCDTracer.__init__ env w = (Err (KeyError "sim.vcd.dump_file"), w) ∧
  (truthy (dict_get (config env) "sim.log.enable" (VBool false)) = false →
   TraceManager.__init__ env w = (Err (KeyError "sim.vcd.dump_file"), w)).
Proof.
  intros Hon Hdump.
  assert (Hvcd : ∀ w0, VCDTracer.__init__ env w0
                       = (Err (KeyError "sim.vcd.dump_file"), w0)).
  { intros w0. unfold VCDTracer.__init__.
    rewrite (init_enabled_eq VCDTracer.name VCDTracer.open VCDTracer.blank
               env w0 Hon).
    rewrite vcd_open_result. cbn [Tracer.env]. unfold subscript.
    by rewrite Hdump. }
  split; [apply Hvcd |].
  intros Hoff. unfold TraceManager.__init__, bind.
  unfold LogTracer.__init__.
  rewrite (init_disabled LogTracer.name LogTracer.open LogTracer.blank
             env w Hoff).
  by rewrite Hvcd.
Qed.

Lemma vcd_missing_dump_file_witness :
  VCDTracer.__init__ no_dump_env start
  = (Err (KeyError "sim.vcd.dump_file"), start).
Proof.
  exact (proj1 (vcd_missing_dump_file no_dump_env start eq_refl eq_refl)).
Defined.



(** X7.  An enabled signal tracer, once constructed, has opened its dump
    file and then created the writer over it, with the time scale of the
    environment and [check_values] defaulting to true; the viewer, if
    any, is started after that.  Closing the tracer closes the writer
    first and the file second. *)
Theorem vcd_open_then_close (env : Env) (w w' : world) (t : VCDTracer.t) :
  truthy (dict_get (config env) "sim.vcd.enable" (VBool false)) = true →
  VCDTracer.__init__ env w = (Ok t, w') →
  ∃ d tail,
    config env !! "sim.vcd.dump_file" = Some (VStr d) ∧
    VCDTracer.vcd (Tracer.ext t) = Some d ∧
    events w' =
      events w ++
      EvOpen d
      :: EvWriter d (timescale env)
           (dict_get (config env) "sim.vcd.check_values" (VBool true))
      :: tail ∧
    (tail = [] ∨ ∃ sv, config env !! "sim.gtkw.file" = Some (VStr sv) ∧
                       tail = [EvSpawnViewer d sv]) ∧
    ∀ w2, ∃ t2,
      Tracer.close t w2 =
        (Ok t2, {| now := now w2;
                   events := events w2 ++ [EvWriterClose d; EvClose d] |}).
Proof.
  intros Hon. unfold VCDTracer.__init__.
  rewrite (init_enabled_eq VCDTracer.name VCDTracer.open VCDTracer.blank
             env w Hon).
  rewrite vcd_open_result. cbn [Tracer.env]. unfold subscript.
  destruct (config env !! "sim.vcd.dump_file") as [dump |]; [| discriminate].
  destruct dump as [| | | | d |]; try discriminate. cbn zeta.
  assert (Hclose : ∀ inc exc w2, ∃ t2,
    Tracer.close
      (Tracer.with_exclude_re
         (Tracer.with_include_re
            (Tracer.enter_context
               (Tracer.with_ext
                  (Tracer.enter_context
                     (Tracer.mk env []
                        (dict_get (config env)
                           (("sim." +:+ VCDTracer.name +:+ ".") +:+ "enable")
                           (VBool false))
                        None None VCDTracer.blank)
                     (RFile d))
                  (VCDTracer.mk_attrs (Some d)))
               (RWriter d)) inc) exc) w2 =
    (Ok t2, {| now := now w2;
               events := events w2 ++ [EvWriterClose d; EvClose d] |})).
  { intros inc exc w2. eexists. unfold Tracer.close, bind.
    rewrite close_all_run. reflexivity. }
  destruct (truthy (dict_get (config env) "sim.gtkw.live" VNone)).
  - destruct (config env !! "sim.gtkw.file") as [save |]; [| discriminate].
    destruct save as [| | | | sv |]; try discriminate.
    destruct (Tracer.compile_all _) as [inc | e]; [| discriminate].
    destruct (Tracer.compile_all _) as [exc | e]; [| discriminate].
    intros [= <- <-]. exists d, [EvSpawnViewer d sv].
    split; [done |]. split; [done |].
    split; [cbn; by rewrite <- app_assoc |].
    split; [right; by exists sv | apply Hclose].
  - destruct (Tracer.compile_all _) as [inc | e]; [| discriminate].
    destruct (Tracer.compile_all _) as [exc | e]; [| discriminate].
    intros [= <- <-]. exists d, [].
    split; [done |]. split; [done |]. split; [done |].
    split; [by left | apply Hclose].
Qed.

Lemma vcd_open_then_close_witness :
  ∃ t2, Tracer.close sample_vcd opened =
          (Ok t2, {| now := now opened;
                     events := events opened ++
                       [EvWriterClose "run.vcd"; EvClose "run.vcd"] |}).
Proof.
  destruct (vcd_open_then_close sample_env log_opened opened sample_vcd
              eq_refl eq_refl) as (d & tail & Hd & _ & _ & _ & Hclose).
  injection Hd as <-. exact (Hclose opened).
Defined.

(** What the constructor of the signal tracer did when it raised: it may
    have opened the dump file and created the writer, and it closed
    nothing. *)
Lemma vcd_init_raise_trace (env : Env) (w w' : world) (e : exn) :
  VCDTracer.__init__ env w = (Err e, w') →
  ∃ evs, events w' = events w ++ evs ∧ ∀ p, ¬ In (EvClose p) evs.
Proof.
  unfold VCDTracer.__init__.
  destruct (truthy (dict_get (config env) "sim.vcd.enable" (VBool false)))
    eqn:Hon.
  - rewrite (init_enabled_eq VCDTracer.name VCDTracer.open VCDTracer.blank
               env w Hon).
    rewrite vcd_open_result. cbn [Tracer.env].
    assert (Hnone : ∃ evs, events w = events w ++ evs ∧
                           ∀ p, ¬ In (EvClose p) evs)
      by (exists []; split; [by rewrite app_nil_r | intros p []]).
    destruct (subscript _ "sim.vcd.dump_file") as [dump | e0];
      [| by intros [= <- <-]].
    destruct dump as [| | | | d |]; try (by intros [= <- <-]). cbn zeta.
    assert (Hsome : ∃ evs,
      events w ++
        [EvOpen d;
         EvWriter d (timescale env)
           (dict_get (config env) "sim.vcd.check_values" (VBool true))]
      = events w ++ evs ∧ ∀ p, ¬ In (EvClose p) evs).
    { eexists. split; [done |]. intros p [| [| []]]; discriminate. }
    destruct (truthy (dict_get (config env) "sim.gtkw.live" VNone)).
    + destruct (subscript (config env) "sim.gtkw.file") as [save | e0];
        [| by intros [= <- <-]].
      destruct save as [| | | | sv |]; try (by intros [= <- <-]).
      destruct (Tracer.compile_all _) as [inc | e0].
      * destruct (Tracer.compile_all _) as [exc | e0]; [discriminate |].
        intros [= <- <-]. cbn. eexists. rewrite <- app_assoc.
        split; [done |]. intros p [| [| [| []]]]; discriminate.
      * intros [= <- <-]. cbn. eexists. rewrite <- app_assoc.
        split; [done |]. intros p [| [| [| []]]]; discriminate.
    + destruct (Tracer.compile_all _) as [inc | e0].
      * destruct (Tracer.compile_all _) as [exc | e0]; [discriminate |].
        by intros [= <- <-].
      * by intros [= <- <-].
  - rewrite (init_disabled VCDTracer.name VCDTracer.open VCDTracer.blank
               env w Hon). discriminate.
Qed.

(** X8.  The manager constructs the log tracer first.  When the
    construction of the signal tracer then raises, the exception leaves
    [TraceManager.__init__] as it is and the log tracer is not closed:
    every file on its exit stack has been opened and none has been
    closed. *)
Theorem manager_init_failure_keeps_log_open (env : Env) (w wl wv : world)
    (log : LogTracer.t) (e : exn) :
  LogTracer.__init__ env w = (Ok log, wl) →
  VCDTracer.__init__ env wl = (Err e, wv) →
  TraceManager.__init__ env w = (Err e, wv) ∧
  ∃ evs, events wv = events w ++ evs ∧
         (∀ p, In (RFile p) (Tracer.exit_stack log) → In (EvOpen p) evs) ∧
         (∀ p, ¬ In (EvClose p) evs).
Proof.
  intros Hlog Hvcd. split.
  { unfold TraceManager.__init__, bind. by rewrite Hlog, Hvcd. }
  destruct (vcd_init_raise_trace _ _ _ _ Hvcd) as (vevs & Hvev & Hvno).
  destruct (truthy (dict_get (config env) "sim.log.enable" (VBool false)))
    eqn:Hon.
  - destruct (log_init_enabled _ _ _ _ Hon Hlog)
      as (_ & _ & max & fmt & tsu & f & _ & _ & _ & Hst & Hev).
    exists (match f with File p => [EvOpen p] | Stderr => [] end ++ vevs).
    split; [by rewrite Hvev, Hev, app_assoc |]. split.
    + intros p Hp. apply in_or_app. left. rewrite Hst in Hp.
      destruct f as [| q]; [done |].
      destruct Hp as [[= ->] | []]. by left.
    + intros p Hin. apply in_app_or in Hin as [Hin | Hin].
      * destruct f as [| q]; [done |]. by destruct Hin as [| []].
      * by apply (Hvno p).
  - destruct (log_init_inv _ _ _ _ Hlog) as (Hen & levs & Hlev & _ & Hoff).
    rewrite Hen in Hoff. destruct (Hoff Hon) as [-> Hst].
    exists vevs. split; [by rewrite Hvev, Hlev, app_nil_r |].
    split; [by rewrite Hst | exact Hvno].
Qed.

Lemma manager_init_failure_keeps_log_open_witness :
  TraceManager.__init__ no_dump_env start =
    (Err (KeyError "sim.vcd.dump_file"), log_opened).
Proof.
  assert (Hlog : LogTracer.__init__ no_dump_env start
                 = (Ok (Tracer.mk no_dump_env [RFile "run.log"] (VBool true)
                          (Some [Re.Cat Re.Eps (Re.Star Re.AnyChar)]) (Some [])
                          (LogTracer.mk_attrs (Some 3%Z)
                             (Some (VStr LogTracer.default_format)) (Some "s")
                             (Some (File "run.log")))),
                    log_opened))
    by (vm_compute; reflexivity).
  assert (Hvcd : VCDTracer.__init__ no_dump_env log_opened
                 = (Err (KeyError "sim.vcd.dump_file"), log_opened))
    by (vm_compute; reflexivity).
  exact (proj1 (manager_init_failure_keeps_log_open _ _ _ _ _ _ Hlog Hvcd)).
Defined.



(** X10.  A constructed tracer never fails to answer
    [is_scope_enabled(scope)]: the pattern lists it loads exist whenever
    it is enabled.  So the scope test of [auto_probe] cannot raise on a
    constructed manager. *)
Theorem constructed_filter_answers (env : Env) (w w' : world)
    (self : TraceManager.t) (r : TraceManager.tracer_ref) (scope : string) :
  TraceManager.__init__ env w = (Ok self, w') →
  ∃ b, TraceManager.tracer_is_scope_enabled self r scope = Ok b.
Proof.
  intros Hinit.
  apply manager_init_inv in Hinit as (_ & _ & wl & Hlog & Hvcd).
  assert (Hany : ∀ X name open (blank : X) w0 (t : Tracer.t X) w1,
            Tracer.__init__ name open blank env w0 = (Ok t, w1) →
            ∃ b, Tracer.is_scope_enabled t scope = Ok b).
  { intros X name open blank w0 t w1 Hi.
    destruct (truthy (dict_get (config env)
                        (("sim." +:+ name +:+ ".") +:+ "enable") (VBool false)))
      eqn:Hon.
    - destruct (init_enabled name open blank env w0 w1 t Hon Hi)
        as (t1 & inc & exc & _ & ->).
      unfold Tracer.is_scope_enabled. cbn.
      destruct (truthy (Tracer.enabled t1)); [| eauto].
      destruct (existsb _ inc); eauto.
    - rewrite (init_disabled name open blank env w0 Hon) in Hi.
      injection Hi as <- <-. exists false.
      by apply is_scope_enabled_disabled. }
  destruct r; simpl.
  - unfold LogTracer.is_scope_enabled. cbn. eapply Hany, Hlog.
  - eapply Hany, Hvcd.
Qed.

Lemma constructed_filter_answers_witness :
  ∃ b, TraceManager.tracer_is_scope_enabled sample_manager
         TraceManager.VcdRef "sim.tank.level" = Ok b.
Proof.
  assert (Hinit : TraceManager.__init__ sample_env start
                  = (Ok sample_manager, opened))
    by (vm_compute; reflexivity).
  exact (constructed_filter_answers _ _ _ _ TraceManager.VcdRef
           "sim.tank.level" Hinit).
Defined.

(** ** What the signal tracer registers *)

Lemma select_kwargs_other (vh : gmap string value) (k : string) :
  k ≠ "size" → k ≠ "init" → k ≠ "ident" →
  VCDTracer.select_kwargs vh !! k = None.
Proof.
  intros Hs Hi Hd. unfold VCDTracer.select_kwargs. simpl.
  destruct (vh !! "size"), (vh !! "init"), (vh !! "ident");
    by simplify_map_eq.
Qed.

Lemma select_kwargs_size_ident (vh : gmap string value) :
  VCDTracer.select_kwargs vh !! "size" = vh !! "size" ∧
  VCDTracer.select_kwargs vh !! "ident" = vh !! "ident".
Proof.
  unfold VCDTracer.select_kwargs. simpl.
  destruct (vh !! "size") eqn:Hs, (vh !! "init"), (vh !! "ident") eqn:Hd;
    by simplify_map_eq.
Qed.

Lemma default_init_other (tgt : target) (kw : gmap string value) (k : string) :
  k ≠ "init" → VCDTracer.default_init tgt kw !! k = kw !! k.
Proof.
  intros Hk. unfold VCDTracer.default_init.
  destruct (dict_has kw "init"); [done |].
  destruct tgt; by simplify_map_eq.
Qed.

(** X11.  Whenever the signal tracer registers a signal, the [size] and
    [ident] arguments are the hints of those names, passed or left out
    as they were given, and no argument other than [size], [init] and
    [ident] is passed: every other hint, [var_type] included, stays with
    the tracer. *)
Theorem register_passes_size_ident_only (self : VCDTracer.t) (scope : string)
    (tgt : target) (hints : hint_bag) (w w' : world) (cb : option callback) :
  VCDTracer.activate_probe self scope tgt hints w = (Ok cb, w') →
  ∃ meth parent name kwargs,
    events w' = events w ++ [EvRegister meth parent name kwargs] ∧
    kwargs !! "size" = dict_get hints "vcd" ∅ !! "size" ∧
    kwargs !! "ident" = dict_get hints "vcd" ∅ !! "ident" ∧
    ∀ k, k ≠ "size" → k ≠ "init" → k ≠ "ident" → kwargs !! k = None.
Proof.
  intros Hact. apply vcd_activate_inv in Hact
    as (_ & kind & parent & name & _ & _ & _ & Hev & _).
  eexists _, parent, name, _. split; [exact Hev |].
  destruct (select_kwargs_size_ident (dict_get hints "vcd" ∅)) as [Hs Hd].
  split; [by rewrite default_init_other |].
  split; [by rewrite default_init_other |].
  intros k Hks Hki Hkd. rewrite default_init_other by done.
  by apply select_kwargs_other.
Qed.

Lemma register_passes_size_ident_only_witness :
  ∃ meth parent name kwargs,
    [EvRegister "register_int" "sim.bus" "data"
       (<["init" := VInt 0]> {["size" := VInt 8]})]
    = [EvRegister meth parent name kwargs] ∧
    kwargs !! "size" = Some (VInt 8) ∧
    kwargs !! "var_type" = None.
Proof.
  assert (Hrun : VCDTracer.activate_probe sample_vcd "sim.bus.data"
                   (Container Unbounded (VInt 0))
                   {["vcd" := <["var_type" := VStr "integer"]>
                                {["size" := VInt 8]}]} start =
                 (Ok (Some (VcdProbe 0)),
                  {| now := VInt 0;
                     events := [EvRegister "register_int" "sim.bus" "data"
                                  (<["init" := VInt 0]> {["size" := VInt 8]})] |}))
    by (vm_compute; reflexivity).
  destruct (register_passes_size_ident_only _ _ _ _ _ _ _ Hrun)
    as (meth & parent & name & kwargs & Hev & Hsize & _ & Hother).
  exists meth, parent, name, kwargs. split; [exact Hev |].
  split; [rewrite Hsize; vm_compute; reflexivity |].
  apply Hother; discriminate.
Defined.

Lemma rsplit_pair_join (c : ascii) (s : string) :
  ∀ p n, rsplit_pair c s = Some (p, n) →
         s = p +:+ String c n ∧ contains_char c n = false.
Proof.
  induction s as [| a s IH]; intros p n; simpl; [discriminate |].
  destruct (rsplit_pair c s) as [[p' n'] |] eqn:Hrec.
  - intros [= <- <-]. destruct (IH p' n' eq_refl) as [-> Hn].
    split; [reflexivity | exact Hn].
  - destruct (Ascii.eqb a c) eqn:Hac; [| discriminate].
    intros [= <- <-]. apply Ascii.eqb_eq in Hac as ->.
    split; [reflexivity |]. by apply rsplit_pair_none.
Qed.

(** X12.  Whenever the signal tracer registers a signal, the scope is
    split at its last dot: the parent scope, a dot and the leaf name
    make up the scope again, and the leaf name has no dot. *)
Theorem register_splits_at_last_dot (self : VCDTracer.t) (scope : string)
    (tgt : target) (hints : hint_bag) (w w' : world) (cb : option callback) :
  VCDTracer.activate_probe self scope tgt hints w = (Ok cb, w') →
  ∃ meth parent name kwargs,
    events w' = events w ++ [EvRegister meth parent name kwargs] ∧
    scope = parent +:+ "." +:+ name ∧
    contains_char "."%char name = false.
Proof.
  intros Hact. apply vcd_activate_inv in Hact
    as (_ & kind & parent & name & _ & _ & Hsplit & Hev & _).
  apply rsplit_pair_join in Hsplit as [Hjoin Hleaf].
  eexists _, parent, name, _. split; [exact Hev |]. by split.
Qed.

Lemma register_splits_at_last_dot_witness :
  ∃ meth parent name kwargs,
    [EvRegister "register_int" "sim.tank" "level" {["init" := VInt 3]}]
    = [EvRegister meth parent name kwargs] ∧
    "sim.tank.level" = parent +:+ "." +:+ name.
Proof.
  assert (Hrun : VCDTracer.activate_probe sample_vcd "sim.tank.level"
                   (Container Unbounded (VInt 3)) {["vcd" := ∅]} start =
                 (Ok (Some (VcdProbe 0)),
                  {| now := VInt 0;
                     events := [EvRegister "register_int" "sim.tank" "level"
                                  {["init" := VInt 3]}] |}))
    by (vm_compute; reflexivity).
  destruct (register_splits_at_last_dot _ _ _ _ _ _ _ Hrun)
    as (meth & parent & name & kwargs & Hev & Hjoin & _).
  exists meth, parent, name, kwargs. split; [exact Hev | exact Hjoin].
Defined.

(** X13.  The callback the signal tracer returns is bound to the signal
    that this call registered: it is the variable numbered by the
    registrations made before, which is the position of this
    registration among all of them.  Calling the callback with a value
    asks the writer for one change of that variable, at the time of the
    call: when the writer accepts it, exactly that change is recorded
    and nothing else; when the writer raises (a value it finds invalid,
    a time that goes backwards), the callback raises the same exception
    and records nothing. *)
Theorem vcd_callback_records_change (self : VCDTracer.t) (scope : string)
    (tgt : target) (hints : hint_bag) (w w1 : world) (ocb : option callback) :
  VCDTracer.activate_probe self scope tgt hints w = (Ok ocb, w1) →
  ∃ var meth parent name kwargs,
    ocb = Some (VcdProbe var) ∧
    events w1 = events w ++ [EvRegister meth parent name kwargs] ∧
    filter (λ ev, VCDTracer.is_register ev = true) (events w1) !! var
      = Some (EvRegister meth parent name kwargs) ∧
    ∀ (fm : Formatter) (wr : Writer) v w2,
      @call_callback fm wr (VcdProbe var) v w2 =
        match @writer_accepts wr (events w2) var (now w2) v with
        | Ok _ => (Ok tt, {| now := now w2;
                             events := events w2 ++ [EvChange var (now w2) v] |})
        | Err e => (Err e, w2)
        end.
Proof.
  intros Hact. apply vcd_activate_inv in Hact
    as (_ & kind & parent & name & _ & _ & _ & Hev & _ & ->).
  eexists _, _, parent, name, _. split; [done |]. split; [exact Hev |].
  split.
  - rewrite Hev, filter_app, filter_cons_True, filter_nil by done.
    by rewrite list_lookup_middle.
  - intros fm wr v w2. unfold call_callback, bind, get_now, get_events, lift.
    by destruct (writer_accepts (events w2) _ (now w2) v) as [[] | e].
Qed.

Lemma vcd_callback_records_change_witness :
  @call_callback plain_format integer_writer (VcdProbe 0) (VInt 5)
    {| now := VInt 10;
       events := [EvRegister "register_int" "sim.tank" "level"
                    {["init" := VInt 3]}] |} =
  (Ok tt,
   {| now := VInt 10;
      events := [EvRegister "register_int" "sim.tank" "level"
                   {["init" := VInt 3]}] ++ [EvChange 0 (VInt 10) (VInt 5)] |}) ∧
  @call_callback plain_format integer_writer (VcdProbe 0) (VStr "abc")
    {| now := VInt 10;
       events := [EvRegister "register_int" "sim.tank" "level"
                    {["init" := VInt 3]}] |} =
  (Err (ValueError "Invalid value"),
   {| now := VInt 10;
      events := [EvRegister "register_int" "sim.tank" "level"
                   {["init" := VInt 3]}] |}).
Proof.
  assert (Hrun : VCDTracer.activate_probe sample_vcd "sim.tank.level"
                   (Container Unbounded (VInt 3)) {["vcd" := ∅]} start =
                 (Ok (Some (VcdProbe 0)),
                  {| now := VInt 0;
                     events := [EvRegister "register_int" "sim.tank" "level"
                                  {["init" := VInt 3]}] |}))
    by (vm_compute; reflexivity).
  destruct (vcd_callback_records_change _ _ _ _ _ _ _ Hrun)
    as (var & meth & parent & name & kwargs & Hcb & _ & _ & Hcall).
  injection Hcb as <-.
  split.
  - exact (Hcall plain_format integer_writer (VInt 5)
             {| now := VInt 10;
                events := [EvRegister "register_int" "sim.tank" "level"
                             {["init" := VInt 3]}] |}).
  - exact (Hcall plain_format integer_writer (VStr "abc")
             {| now := VInt 10;
                events := [EvRegister "register_int" "sim.tank" "level"
                             {["init" := VInt 3]}] |}).
Defined.

(** ** The log tracer's levels at activation *)



(** X15.  A level that is not a name of the table is looked up before
    anything else is tested: [is_scope_enabled], [get_log_function] and
    [activate_probe] raise [KeyError] for it, whether the tracer is
    enabled or not and whatever the scope. *)
Theorem unknown_level_raises (t : LogTracer.t) (scope s : string)
    (tgt : target) (hints : hint_bag) (fm : Formatter) :
  LogTracer.levels !! s = None →
  LogTracer.is_scope_enabled t scope (VStr s) = Err (KeyError s) ∧
  @LogTracer.get_log_function fm t scope (VStr s) = Err (KeyError s) ∧
  (dict_get hints "log" ∅ !! "level" = Some (VStr s) →
   @LogTracer.activate_probe fm t scope tgt hints = Err (KeyError s)).
Proof.
  intros Hs.
  assert (Hen : LogTracer.is_scope_enabled t scope (VStr s)
                = Err (KeyError s)).
  { unfold LogTracer.is_scope_enabled. cbn [LogTracer.levels_subscript].
    unfold subscript. by rewrite Hs. }
  split; [exact Hen |]. split.
  - unfold LogTracer.get_log_function. by rewrite Hen.
  - intros Hhint. unfold LogTracer.activate_probe. cbn zeta.
    unfold dict_get at 1. by rewrite Hhint, Hen.
Qed.

Lemma unknown_level_raises_witness :
  @LogTracer.get_log_function plain_format sample_log "sim.net" (VStr "TRACE")
  = Err (KeyError "TRACE").
Proof.
  exact (proj1 (proj2 (unknown_level_raises sample_log "sim.net" "TRACE"
                         Other ∅ plain_format eq_refl))).
Defined.

(** ** More on [auto_probe] *)

Section MoreDispatch.
Context `{Formatter}.

Lemma probe_loop_no_hint (self : TraceManager.t) scope tgt (hints : hint_bag)
    rs : ∀ cbs w,
  (∀ r, In r rs → dict_has hints (TraceManager.tracer_name r) = false) →
  TraceManager.probe_loop self scope tgt hints rs cbs w = (Ok cbs, w).
Proof.
  induction rs as [| r rs IH]; intros cbs w Hno; simpl; [done |].
  unfold bind, TraceManager.probe_tracer.
  rewrite (Hno r) by (by left). unfold ret.
  apply IH. intros r' Hr'. apply Hno. by right.
Qed.

(** X16.  When no tracer's name is a key of the hints, [auto_probe]
    returns having done nothing at all: no tracer is asked about the
    scope (the call succeeds whatever state the tracers are in), nothing
    is registered, nothing is attached. *)
Theorem auto_probe_without_hints (self : TraceManager.t) (scope : string)
    (tgt : target) (hints : hint_bag) (w : world) :
  (∀ r, In r (TraceManager.tracers self) →
        dict_has hints (TraceManager.tracer_name r) = false) →
  TraceManager.auto_probe self scope tgt hints w = (Ok tt, w).
Proof.
  intros Hno. unfold TraceManager.auto_probe, bind.
  by rewrite (probe_loop_no_hint _ _ _ _ _ _ _ Hno).
Qed.

Lemma log_callback_shape (self : TraceManager.t) scope tgt (hints : hint_bag)
    w ocb w1 :
  TraceManager.tracer_activate_probe self TraceManager.LogRef scope tgt hints w
    = (Ok ocb, w1) →
  ocb = None ∨ ∃ fs vf f, ocb = Some (LogProbe fs vf f).
Proof.
  simpl. unfold lift, LogTracer.activate_probe. cbn zeta.
  destruct (LogTracer.is_scope_enabled _ _ _) as [[|] | e]; simpl;
    [| intros [= <- _]; by left | discriminate].
  destruct (LogTracer.bound_format _ _ _) as [fs | e]; simpl;
    [| discriminate].
  intros [= <- _]. right. eauto.
Qed.

Lemma vcd_callback_shape (self : TraceManager.t) scope tgt (hints : hint_bag)
    w ocb w1 :
  TraceManager.tracer_activate_probe self TraceManager.VcdRef scope tgt hints w
    = (Ok ocb, w1) →
  ∃ n, ocb = Some (VcdProbe n).
Proof.
  simpl. intros Hact. apply vcd_activate_inv in Hact
    as (_ & kind & parent & name & _ & _ & _ & _ & _ & ->).
  eauto.
Qed.

(** X17.  On a manager with its two tracers in the order of
    construction, whatever [auto_probe] attaches is attached under the
    scope, target and hints of the call, and the callbacks are at most
    one per tracer, the log tracer's before the signal tracer's. *)
Theorem attach_callbacks_in_order (self : TraceManager.t) (scope : string)
    (tgt : target) (hints : hint_bag) (w w' : world) (res : result unit) :
  TraceManager.tracers self = [TraceManager.LogRef; TraceManager.VcdRef] →
  TraceManager.auto_probe self scope tgt hints w = (res, w') →
  ∃ evs, events w' = events w ++ evs ∧
    ∀ s t cbs h, In (EvAttach s t cbs h) evs →
      s = scope ∧ t = tgt ∧ h = hints ∧
      ∃ fs vf f n,
        cbs = [LogProbe fs vf f] ∨ cbs = [VcdProbe n] ∨
        cbs = [LogProbe fs vf f; VcdProbe n].
Proof.
  intros Htr. unfold TraceManager.auto_probe, bind. rewrite Htr.
  destruct (TraceManager.probe_loop self scope tgt hints _ [] w)
    as [[cbs | e] w1] eqn:Hloop;
    destruct (probe_loop_trace _ _ _ _ _ _ _ _ _ Hloop)
      as (evs0 & Hev0 & Hnt0 & _ & Hres0).
  2:{ intros [= <- <-]. exists evs0. split; [done |].
      intros s t cbs h Hin.
      assert (Hf : In (EvAttach s t cbs h)
                     (filter (λ ev, is_attach ev = true) evs0))
        by (apply list_elem_of_In, list_elem_of_filter;
            split; [done | by apply list_elem_of_In]).
      by rewrite Hnt0 in Hf. }
  destruct Hres0 as (_ & new & Hnew & Hcol). simpl in Hnew. subst new.
  assert (Hshape : cbs = [] ∨ ∃ fs vf f n,
            cbs = [LogProbe fs vf f] ∨ cbs = [VcdProbe n] ∨
            cbs = [LogProbe fs vf f; VcdProbe n]).
  { repeat match goal with
           | Hc : collects _ _ _ _ (_ :: _) _ _ _ |- _ =>
               inversion Hc; clear Hc; subst
           | Hc : collects _ _ _ _ [] _ _ _ |- _ =>
               inversion Hc; clear Hc; subst
           | Ha : TraceManager.tracer_activate_probe _ TraceManager.LogRef
                    _ _ _ _ = (Ok _, _) |- _ =>
               apply log_callback_shape in Ha as [-> | (? & ? & ? & ->)]
           | Ha : TraceManager.tracer_activate_probe _ TraceManager.VcdRef
                    _ _ _ _ = (Ok _, _) |- _ =>
               apply vcd_callback_shape in Ha as (? & ->)
           end; simpl; try (by left); right;
      first [ by (eexists _, _, _, 0; left)
            | by (eexists "", VNone, None, _; right; left)
            | by (eexists _, _, _, _; right; right) ]. }
  intros Hlast.
  assert (Hw' : ∃ tail, events w' = events w1 ++ tail ∧
                        ∀ s t c h, In (EvAttach s t c h) tail →
                                   s = scope ∧ t = tgt ∧ c = cbs ∧ h = hints ∧
                                   cbs ≠ []).
  { destruct cbs as [| cb cbs']; unfold ret, emit in Hlast;
      injection Hlast as _ <-.
    - exists []. by rewrite app_nil_r.
    - eexists. split; [done |]. intros s t c h [[= <- <- <- <-] | []].
      done. }
  destruct Hw' as (tail & Hw' & Htail).
  exists (evs0 ++ tail). split; [by rewrite Hw', Hev0, app_assoc |].
  intros s t c h Hin. apply in_app_or in Hin as [Hin | Hin].
  - assert (Hf : In (EvAttach s t c h)
                   (filter (λ ev, is_attach ev = true) evs0))
      by (apply list_elem_of_In, list_elem_of_filter;
          split; [done | by apply list_elem_of_In]).
    by rewrite Hnt0 in Hf.
  - destruct (Htail _ _ _ _ Hin) as (-> & -> & -> & -> & Hne).
    repeat split. by destruct Hshape.
Qed.

End MoreDispatch.

Lemma auto_probe_without_hints_witness :
  @TraceManager.auto_probe plain_format sample_manager "sim.tank.level"
    (Container Unbounded (VInt 3)) ∅ opened = (Ok tt, opened).
Proof.
  apply (@auto_probe_without_hints plain_format).
  intros r _. destruct r; reflexivity.
Defined.

Lemma attach_callbacks_in_order_witness :
  ∃ evs,
    [EvActivate "log"; EvActivate "vcd";
     EvRegister "register_int" "sim.tank" "level" {["init" := VInt 3]};
     EvAttach "sim.tank.level" (Container Unbounded (VInt 3))
       [LogProbe "PROBE {ts:.3f} s: sim.tank.level: {message}"
          (VStr "{value}") (Some (File "run.log"));
        VcdProbe 0]
       (<["log" := ∅]> {["vcd" := ∅]})]
    = events start ++ evs ∧
    ∀ s t cbs h, In (EvAttach s t cbs h) evs → s = "sim.tank.level".
Proof.
  assert (Hrun :
    @TraceManager.auto_probe plain_format sample_manager "sim.tank.level"
      (Container Unbounded (VInt 3)) (<["log" := ∅]> {["vcd" := ∅]}) start =
    (Ok tt,
     {| now := VInt 0;
        events := [EvActivate "log"; EvActivate "vcd";
                   EvRegister "register_int" "sim.tank" "level"
                     {["init" := VInt 3]};
                   EvAttach "sim.tank.level" (Container Unbounded (VInt 3))
                     [LogProbe "PROBE {ts:.3f} s: sim.tank.level: {message}"
                        (VStr "{value}") (Some (File "run.log"));
                      VcdProbe 0]
                     (<["log" := ∅]> {["vcd" := ∅]})] |}))
    by (vm_compute; reflexivity).
  destruct (@attach_callbacks_in_order plain_format sample_manager _ _ _ _ _ _
              eq_refl Hrun) as (evs & Hev & Hatt).
  exists evs. split; [exact Hev |].
  intros s t cbs h Hin. by destruct (Hatt s t cbs h Hin) as (-> & _).
Defined.

(** X18.  The signal tracer's [activate_probe] asserts that the tracer
    is enabled.  Called on a disabled tracer it raises [AssertionError]
    and registers nothing; but a tracer whose [is_scope_enabled(scope)]
    is true is enabled, so behind the scope test of [auto_probe] the
    assertion never fails. *)
Theorem scope_test_discharges_assertion (self : VCDTracer.t) (scope : string)
    (tgt : target) (hints : hint_bag) (w : world) :
  Tracer.is_scope_enabled self scope = Ok true →
  truthy (Tracer.enabled self) = true ∧
  fst (VCDTracer.activate_probe self scope tgt hints w) ≠ Err AssertionError ∧
  ∀ other : VCDTracer.t,
    truthy (Tracer.enabled other) = false →
    VCDTracer.activate_probe other scope tgt hints w = (Err AssertionError, w).
Proof.
  intros Hscope.
  assert (Hen : truthy (Tracer.enabled self) = true).
  { destruct (truthy (Tracer.enabled self)) eqn:Hen; [done |].
    rewrite (is_scope_enabled_disabled self scope Hen) in Hscope.
    discriminate. }
  split; [exact Hen |]. split.
  - unfold VCDTracer.activate_probe. rewrite Hen. cbn [negb].
    unfold bind, lift, ret.
    destruct (VCDTracer.resolve_var_type _ _ _) as [vt | e] eqn:Hvt.
    + destruct (VCDTracer.select_register _ _ _) as [[m kw] | e] eqn:Hsel.
      * apply select_register_inv in Hsel as (kind & -> & _ & -> & -> & _).
        rewrite unpack_rsplit.
        by destruct (rsplit_pair "."%char scope) as [[parent name] |].
      * simpl. intros [= ->].
        unfold VCDTracer.select_register, VCDTracer.writer_method,
          VCDTracer.self_method in Hsel.
        destruct (VCDTracer.vcd _);
          repeat (destruct (VCDTracer.var_type_is _ _)); discriminate.
    + simpl. intros [= ->].
      unfold VCDTracer.resolve_var_type, VCDTracer.infer_var_type in Hvt.
      destruct (dict_get _ "var_type" VNone); try discriminate.
      destruct tgt as [? level | | |]; try discriminate.
      by destruct (is_float level).
  - intros other Hoff. unfold VCDTracer.activate_probe. by rewrite Hoff.
Qed.

Lemma scope_test_discharges_assertion_witness :
  truthy (Tracer.enabled sample_vcd) = true ∧
  VCDTracer.activate_probe
    (Tracer.mk quiet_env [] (VBool false) None None VCDTracer.blank)
    "sim.tank.level" (Container Unbounded (VInt 3)) {["vcd" := ∅]} start
  = (Err AssertionError, start).
Proof.
  destruct (scope_test_discharges_assertion sample_vcd "sim.tank.level"
              (Container Unbounded (VInt 3)) {["vcd" := ∅]} start eq_refl)
    as (Hen & _ & Hoff).
  split; [exact Hen |]. apply Hoff. reflexivity.
Defined.

(** ** Leaving the tracing scope without a report *)

Lemma log_exit_quiet `{Formatter} (self : LogTracer.t)
    (exc : option exc_info) (w : world) :
  exc = None ∨ truthy (Tracer.enabled self) = false →
  LogTracer.__exit__ self exc w =
    (Ok (Tracer.with_exit_stack self [], false),
     {| now := now w;
        events := events w ++ close_events (Tracer.exit_stack self) |}).
Proof.
  intros Hquiet. unfold LogTracer.__exit__.
  assert (Hskip : match exc with
                  | Some e =>
                      if truthy (Tracer.enabled self) then false else true
                  | None => true
                  end = true).
  { destruct Hquiet as [-> | Hoff]; [done |]. rewrite Hoff. by destruct exc. }
  destruct exc as [e |]; [destruct (truthy (Tracer.enabled self));
                          [discriminate |] |];
    unfold bind, ret, Tracer.close, bind; by rewrite close_all_run.
Qed.

(** X19.  Leaving the tracing scope without an exception, or with one
    while the log tracer is disabled, prints nothing: the signal tracer
    is closed, then the log tracer, and the result does not ask for
    suppression.  After that the manager's exit stack is empty, so
    leaving again, with or without an exception, does nothing at all. *)
Theorem manager_exit_quiet_then_inert (fm : Formatter) (self : TraceManager.t)
    (exc : option exc_info) (w : world) :
  TraceManager.exit_stack self = [TraceManager.LogRef; TraceManager.VcdRef] →
  exc = None ∨ truthy (Tracer.enabled (TraceManager.log_tracer self)) = false →
  ∃ self',
    @TraceManager.__exit__ fm self exc w =
      (Ok (self', false),
       {| now := now w;
          events := events w ++
            close_events (Tracer.exit_stack (TraceManager.vcd_tracer self)) ++
            close_events (Tracer.exit_stack (TraceManager.log_tracer self)) |}) ∧
    TraceManager.exit_stack self' = [] ∧
    Tracer.exit_stack (TraceManager.log_tracer self') = [] ∧
    Tracer.exit_stack (TraceManager.vcd_tracer self') = [] ∧
    ∀ exc' w2, @TraceManager.__exit__ fm self' exc' w2 = (Ok (self', false), w2).
Proof.
  intros Hstack Hquiet. destruct self as [st log vcd trs].
  simpl in Hstack, Hquiet. subst st.
  eexists. split.
  - unfold TraceManager.__exit__, TraceManager.exit_stack_exit. simpl rev.
    cbn [TraceManager.log_tracer TraceManager.vcd_tracer TraceManager.tracers].
    unfold bind at 1 2. cbn [TraceManager.exit_loop].
    unfold bind at 1. unfold catch at 1.
    unfold TraceManager.tracer_exit at 1.
    cbn [TraceManager.log_tracer TraceManager.vcd_tracer TraceManager.tracers
         TraceManager.exit_stack].
    unfold bind at 1. rewrite tracer_exit_run.
    unfold ret at 1. unfold ret at 1.
    unfold bind at 1. unfold catch at 1.
    unfold TraceManager.tracer_exit at 1.
    cbn [TraceManager.log_tracer TraceManager.vcd_tracer TraceManager.tracers
         TraceManager.exit_stack].
    unfold bind at 1.
    rewrite (log_exit_quiet log exc _ Hquiet).
    unfold ret. simpl. rewrite <- app_assoc. reflexivity.
  - split; [done |]. split; [done |]. split; [done |]. intros exc' w2.
    unfold TraceManager.__exit__, TraceManager.exit_stack_exit, bind, ret.
    reflexivity.
Qed.

Lemma manager_exit_quiet_then_inert_witness :
  ∃ self',
    @TraceManager.__exit__ plain_format sample_manager None opened =
      (Ok (self', false),
       {| now := now opened;
          events := events opened ++
            [EvWriterClose "run.vcd"; EvClose "run.vcd"] ++
            [EvClose "run.log"] |}) ∧
    ∀ w2, @TraceManager.__exit__ plain_format self' (Some boom) w2
          = (Ok (self', false), w2).
Proof.
  destruct (manager_exit_quiet_then_inert plain_format sample_manager None
              opened eq_refl (or_introl eq_refl))
    as (self' & Hexit & _ & _ & _ & Hagain).
  exists self'. split; [exact Hexit |].
  intros w2. apply Hagain.
Defined.
